(** * NexVue: the analysis client and the capture/analyze control loop

    A shallow embedding of [services/geminiService.ts] (the analysis client)
    and of [App.tsx] (the React component that owns the capture mode, the
    auto-scan timer and the voice alerts), with the properties of the
    design document stated against it.

    JavaScript strings are modelled as [string]; the browser and the remote
    model are the environment: what they answer enters the model as the
    argument of an event or as a section variable. *)

From Stdlib Require Import String Ascii List Bool Arith Lia.
From Stdlib Require Import DecimalString.
Import ListNotations.
Open Scope string_scope.
Set Warnings "-register-all".

(** ** Strings *)

(** [strip_prefix p s] is [Some rest] when [s = p ++ rest]: a literal regular
    expression anchored with [^]. *)
Fixpoint strip_prefix (p s : string) : option string :=
  match p, s with
  | EmptyString, _ => Some s
  | String a p', String b s' => if Ascii.eqb a b then strip_prefix p' s' else None
  | String _ _, EmptyString => None
  end.

Definition starts_with (p s : string) : bool :=
  match strip_prefix p s with Some _ => true | None => false end.

(** Truthiness of a JavaScript string: every string but the empty one. *)
Definition truthy (s : string) : bool :=
  match s with EmptyString => false | String _ _ => true end.

Definition truthy_opt (o : option string) : bool :=
  match o with Some s => truthy s | None => false end.

(** ** JSON values, as [JSON.parse] builds them *)

Inductive json : Type :=
| JNull
| JBool (b : bool)
| JNumber (literal : string)
| JString (s : string)
| JArray (items : list json)
| JObject (props : list (string * json)).

(** A JavaScript object as its own enumerable properties, in insertion
    order.  Assigning to a key that exists keeps its position. *)
Definition jsobject := list (string * json).

Fixpoint obj_get (k : string) (o : jsobject) : option json :=
  match o with
  | [] => None
  | (k', v) :: o' => if String.eqb k k' then Some v else obj_get k o'
  end.

Fixpoint obj_set (k : string) (v : json) (o : jsobject) : jsobject :=
  match o with
  | [] => [(k, v)]
  | (k', v') :: o' =>
      if String.eqb k k' then (k', v) :: o' else (k', v') :: obj_set k v o'
  end.

(** ** A reader for JSON text

    [JSON.parse] is a builtin, not code of this repository: the theorems
    about the analysis client take it as a section variable.  The reader
    below follows the JSON grammar (ECMA-404) and is what the concrete
    examples run on.  Numbers keep their literal; a [\u] escape is stored
    as the UTF-8 bytes of its code unit. *)

Definition dquote : ascii := ascii_of_nat 34.

(** Test texts are written with apostrophes where JSON has double quotes. *)
Fixpoint dq (s : string) : string :=
  match s with
  | EmptyString => EmptyString
  | String c s' => String (if Ascii.eqb c "'" then dquote else c) (dq s')
  end.

Definition is_ws (c : ascii) : bool :=
  let n := nat_of_ascii c in
  Nat.eqb n 32 || Nat.eqb n 9 || Nat.eqb n 10 || Nat.eqb n 13.

Definition is_digit (c : ascii) : bool :=
  let n := nat_of_ascii c in Nat.leb 48 n && Nat.leb n 57.

Fixpoint skip_ws (s : string) : string :=
  match s with
  | String c s' => if is_ws c then skip_ws s' else s
  | EmptyString => s
  end.

Fixpoint span_digits (s : string) : string * string :=
  match s with
  | String c s' =>
      if is_digit c then let (d, r) := span_digits s' in (String c d, r)
      else ("", s)
  | EmptyString => ("", "")
  end.

Definition parse_int (s : string) : option (string * string) :=
  match s with
  | String c r =>
      if Ascii.eqb c "0" then Some ("0", r)
      else if is_digit c then let (d, r') := span_digits r in Some (String c d, r')
      else None
  | EmptyString => None
  end.

Definition parse_frac (s : string) : option (string * string) :=
  match s with
  | String "." r =>
      match span_digits r with
      | (EmptyString, _) => None
      | (d, r') => Some (String "." d, r')
      end
  | _ => Some ("", s)
  end.

Definition parse_exp (s : string) : option (string * string) :=
  match s with
  | String c r =>
      if Ascii.eqb c "e" || Ascii.eqb c "E" then
        let (sign, r1) :=
          match r with
          | String "+" r1 => ("+", r1)
          | String "-" r1 => ("-", r1)
          | _ => ("", r)
          end in
        match span_digits r1 with
        | (EmptyString, _) => None
        | (d, r2) => Some (String c (sign ++ d), r2)
        end
      else Some ("", s)
  | EmptyString => Some ("", s)
  end.

Definition parse_number (s : string) : option (string * string) :=
  let (sign, r0) := match s with String "-" r => ("-", r) | _ => ("", s) end in
  match parse_int r0 with
  | None => None
  | Some (i, r1) =>
      match parse_frac r1 with
      | None => None
      | Some (f, r2) =>
          match parse_exp r2 with
          | None => None
          | Some (e, r3) => Some (sign ++ i ++ f ++ e, r3)
          end
      end
  end.

Definition hex_val (c : ascii) : option nat :=
  let n := nat_of_ascii c in
  if Nat.leb 48 n && Nat.leb n 57 then Some (n - 48)
  else if Nat.leb 65 n && Nat.leb n 70 then Some (n - 55)
  else if Nat.leb 97 n && Nat.leb n 102 then Some (n - 87)
  else None.

Definition hex4 (a b c d : ascii) : option nat :=
  match hex_val a, hex_val b, hex_val c, hex_val d with
  | Some x, Some y, Some z, Some w => Some (((x * 16 + y) * 16 + z) * 16 + w)
  | _, _, _, _ => None
  end.

Definition utf8 (n : nat) : string :=
  if Nat.ltb n 128 then String (ascii_of_nat n) ""
  else if Nat.ltb n 2048 then
    String (ascii_of_nat (192 + n / 64)) (String (ascii_of_nat (128 + n mod 64)) "")
  else
    String (ascii_of_nat (224 + n / 4096))
      (String (ascii_of_nat (128 + (n / 64) mod 64))
         (String (ascii_of_nat (128 + n mod 64)) "")).

Definition unescape (e : ascii) : option ascii :=
  if Ascii.eqb e dquote then Some dquote
  else if Ascii.eqb e "\" then Some "\"%char
  else if Ascii.eqb e "/" then Some "/"%char
  else if Ascii.eqb e "b" then Some (ascii_of_nat 8)
  else if Ascii.eqb e "f" then Some (ascii_of_nat 12)
  else if Ascii.eqb e "n" then Some (ascii_of_nat 10)
  else if Ascii.eqb e "r" then Some (ascii_of_nat 13)
  else if Ascii.eqb e "t" then Some (ascii_of_nat 9)
  else None.

Definition prepend (p : string) (r : option (string * string)) : option (string * string) :=
  match r with
  | Some (s, rest) => Some (p ++ s, rest)
  | None => None
  end.

(** The characters of a string literal, after its opening quote. *)
Fixpoint parse_chars (s : string) : option (string * string) :=
  match s with
  | EmptyString => None
  | String c r =>
      if Ascii.eqb c dquote then Some ("", r)
      else if Ascii.eqb c "\" then
        match r with
        | String e r1 =>
            if Ascii.eqb e "u" then
              match r1 with
              | String a (String b (String c' (String d r2))) =>
                  match hex4 a b c' d with
                  | Some n => prepend (utf8 n) (parse_chars r2)
                  | None => None
                  end
              | _ => None
              end
            else
              match unescape e with
              | Some ch => prepend (String ch "") (parse_chars r1)
              | None => None
              end
        | EmptyString => None
        end
      else if Nat.ltb (nat_of_ascii c) 32 then None
      else prepend (String c "") (parse_chars r)
  end.

Definition parse_literal (s : string) : option (json * string) :=
  match strip_prefix "true" s with
  | Some r => Some (JBool true, r)
  | None =>
      match strip_prefix "false" s with
      | Some r => Some (JBool false, r)
      | None =>
          match strip_prefix "null" s with
          | Some r => Some (JNull, r)
          | None =>
              match parse_number s with
              | Some (n, r) => Some (JNumber n, r)
              | None => None
              end
          end
      end
  end.

Fixpoint parse_value (fuel : nat) (s : string) {struct fuel} : option (json * string) :=
  match fuel with
  | 0 => None
  | S f =>
      match skip_ws s with
      | EmptyString => None
      | String c r =>
          if Ascii.eqb c "{" then
            match skip_ws r with
            | String "}" r' => Some (JObject [], r')
            | _ => parse_members f [] r
            end
          else if Ascii.eqb c "[" then
            match skip_ws r with
            | String "]" r' => Some (JArray [], r')
            | _ => parse_elements f [] r
            end
          else if Ascii.eqb c dquote then
            match parse_chars r with
            | Some (str, r') => Some (JString str, r')
            | None => None
            end
          else parse_literal (String c r)
      end
  end
with parse_elements (fuel : nat) (acc : list json) (s : string) {struct fuel}
  : option (json * string) :=
  match fuel with
  | 0 => None
  | S f =>
      match parse_value f s with
      | None => None
      | Some (v, r) =>
          match skip_ws r with
          | String "," r' => parse_elements f (acc ++ [v]) r'
          | String "]" r' => Some (JArray (acc ++ [v]), r')
          | _ => None
          end
      end
  end
with parse_members (fuel : nat) (acc : jsobject) (s : string) {struct fuel}
  : option (json * string) :=
  match fuel with
  | 0 => None
  | S f =>
      match skip_ws s with
      | String c r =>
          if Ascii.eqb c dquote then
            match parse_chars r with
            | None => None
            | Some (key, r1) =>
                match skip_ws r1 with
                | String ":" r2 =>
                    match parse_value f r2 with
                    | None => None
                    | Some (v, r3) =>
                        match skip_ws r3 with
                        | String "," r4 => parse_members f (obj_set key v acc) r4
                        | String "}" r4 => Some (JObject (obj_set key v acc), r4)
                        | _ => None
                        end
                    end
                | _ => None
                end
            end
          else None
      | EmptyString => None
      end
  end.

(** The whole text must be one value, white space apart. *)
Definition JSON_parse (text : string) : option json :=
  match parse_value (2 * String.length text + 2) text with
  | Some (v, rest) =>
      match skip_ws rest with
      | EmptyString => Some v
      | String _ _ => None
      end
  | None => None
  end.

(** ** services/geminiService.ts: the analysis client *)

Module GeminiService.

(** The response schema handed to the remote model ([Schema] of the SDK,
    without the descriptions). *)
Inductive Schema : Type :=
| TString (enum : option (list string))
| TArray (items : Schema)
| TObject (properties : list (string * Schema)) (required : list string).

Definition analysisSchema : Schema :=
  TObject
    [("signs",
      TArray (TObject [("type", TString None);
                       ("meaning", TString None);
                       ("location", TString None)]
                      ["type"; "meaning"; "location"]));
     ("hazards",
      TArray (TObject [("type", TString None);
                       ("severity", TString (Some ["LOW"; "MEDIUM"; "HIGH"]));
                       ("description", TString None)]
                      ["type"; "severity"; "description"]));
     ("safetyLevel", TString (Some ["SAFE"; "CAUTION"; "DANGER"]));
     ("recommendation", TString None)]
    ["signs"; "hazards"; "safetyLevel"; "recommendation"].

Definition mem (s : string) (l : list string) : bool := existsb (String.eqb s) l.

Definition has_key (o : jsobject) (k : string) : bool :=
  match obj_get k o with Some _ => true | None => false end.

(** What it means for a value to match a schema: the type, the enumeration,
    every required property present and every declared property matching. *)
Fixpoint matches (sc : Schema) (v : json) {struct sc} : bool :=
  match sc, v with
  | TString None, JString _ => true
  | TString (Some allowed), JString s => mem s allowed
  | TArray items, JArray l => forallb (matches items) l
  | TObject properties required, JObject o =>
      forallb (has_key o) required
      && (fix each (ps : list (string * Schema)) : bool :=
            match ps with
            | [] => true
            | (k, sc') :: ps' =>
                match obj_get k o with
                | Some v' => matches sc' v'
                | None => true
                end && each ps'
            end) properties
  | _, _ => false
  end.

(** [/^data:image\/(png|jpeg|jpg|webp);base64,/]: the alternatives are tried
    from left to right, each followed by the literal [;base64,]. *)
Definition image_formats : list string := ["png"; "jpeg"; "jpg"; "webp"].

Definition data_url_prefix (format : string) : string :=
  "data:image/" ++ format ++ ";base64,".

Fixpoint match_data_url (formats : list string) (s : string) : option string :=
  match formats with
  | [] => None
  | f :: fs =>
      match strip_prefix (data_url_prefix f) s with
      | Some rest => Some rest
      | None => match_data_url fs s
      end
  end.

(** [base64Image.replace(/^data:image\/(png|jpeg|jpg|webp);base64,/, "")] *)
Definition cleanBase64 (base64Image : string) : string :=
  match match_data_url image_formats base64Image with
  | Some rest => rest
  | None => base64Image
  end.

Record InlineData := { mimeType : string; data : string }.

Record GenerateContentParameters := {
  model : string;
  inlineData : InlineData;
  text : string;
  responseMimeType : string;
  responseSchema : Schema;
  systemInstruction : string;
  temperature : string
}.

Definition request (base64Image : string) : GenerateContentParameters :=
  {| model := "gemini-2.5-flash";
     inlineData := {| mimeType := "image/jpeg"; data := cleanBase64 base64Image |};
     text := "Analyze this road scene for an autonomous driving system. Identify road signs, detect potholes or road damage, and spot obstacles. Provide a safety assessment and driving recommendation.";
     responseMimeType := "application/json";
     responseSchema := analysisSchema;
     systemInstruction := "You are an advanced autonomous vehicle vision system. Your priority is safety. Be precise about road signs and extremely vigilant about hazards like potholes and obstacles.";
     temperature := "0.2" |}.

(** What [await ai.models.generateContent(...)] gives: a rejection, or a
    response whose [text] may be undefined. *)
Inductive Reply : Type :=
| NetworkFailure (reason : string)
| Response (text : option string).

Inductive JsError : Type :=
| RequestFailed (reason : string)
| NoResponseText
| SyntaxError (text : string).

(** [{...data}]: the own enumerable properties of a value. *)
Definition string_of_nat (n : nat) : string := NilEmpty.string_of_uint (Nat.to_uint n).

Fixpoint indexed {A : Type} (f : A -> json) (i : nat) (l : list A) : jsobject :=
  match l with
  | [] => []
  | x :: l' => (string_of_nat i, f x) :: indexed f (S i) l'
  end.

Definition spread (v : json) : jsobject :=
  match v with
  | JObject o => o
  | JArray l => indexed (fun x => x) 0 l
  | JString s => indexed (fun c => JString (String c "")) 0 (list_ascii_of_string s)
  | JNull | JBool _ | JNumber _ => []
  end.

Section AnalysisClient.

(** The environment of one call: the remote model, [JSON.parse] and the
    clock reading [new Date().toLocaleTimeString()]. *)
Variable generateContent : GenerateContentParameters -> Reply.
Variable parse : string -> option json.
Variable toLocaleTimeString : string.

(** The console lines of the call and what its promise settles to. *)
Definition analyzeRoadScene (base64Image : string)
  : list (string * JsError) * (JsError + jsobject) :=
  let failed e := ([("Gemini Analysis Error:", e)], inl e) in
  match generateContent (request base64Image) with
  | NetworkFailure reason => failed (RequestFailed reason)
  | Response text =>
      match text with
      | None => failed NoResponseText
      | Some body =>
          if negb (truthy body) then failed NoResponseText
          else
            match parse body with
            | None => failed (SyntaxError body)
            | Some data =>
                ([], inr (obj_set "timestamp" (JString toLocaleTimeString) (spread data)))
            end
      end
  end.

Definition rejects (base64Image : string) : bool :=
  match snd (analyzeRoadScene base64Image) with inl _ => true | inr _ => false end.

(** The three conditions of the design document, read off the reply. *)
Definition network_fails (base64Image : string) : bool :=
  match generateContent (request base64Image) with
  | NetworkFailure _ => true
  | Response _ => false
  end.

Definition body (base64Image : string) : option string :=
  match generateContent (request base64Image) with
  | Response (Some b) => if truthy b then Some b else None
  | _ => None
  end.

Definition no_body (base64Image : string) : bool :=
  negb (network_fails base64Image)
  && match body base64Image with Some _ => false | None => true end.

Definition body_not_json (base64Image : string) : bool :=
  match body base64Image with
  | Some b => match parse b with Some _ => false | None => true end
  | None => false
  end.

Definition body_not_matching_schema (base64Image : string) : bool :=
  match body base64Image with
  | Some b =>
      match parse b with
      | Some v => negb (matches analysisSchema v)
      | None => true
      end
  | None => false
  end.

End AnalysisClient.

End GeminiService.

(** ** types.ts

    [safetyLevel] and [severity] are the strings the reply carries: nothing
    checks them against the enumerations at run time. *)

Module Types.

Record RoadSign := { sign_type : string; meaning : string; location : string }.

Record Hazard := { hazard_type : string; severity : string; description : string }.

Record AnalysisResult := {
  signs : list RoadSign;
  hazards : list Hazard;
  safetyLevel : string;
  recommendation : string;
  timestamp : string
}.

End Types.

(** ** App.tsx: the component

    A render of the component closes its handlers over the values of the
    state cells at that render; a setter writes the cell.  Handlers and the
    continuations of [async] functions therefore take the [State] they
    closed over ([c]) and transform the [World], which holds the cells, the
    refs and what the browser keeps for the page (interval timers, the
    speech queue, the console, promises not yet settled).

    The page advances one task of the event loop at a time ([step]): a
    click, a tick of the interval, the settling of a promise.  React commits
    the cells a task wrote, with the effects whose dependencies changed,
    before the next task runs; so a click is handled by the render of the
    current cells, an interval by the render that created it, and the
    continuation of a suspended call by the render that made the call. *)

Module App.

Import Types.

Inductive Mode : Type := initial | camera | upload.

Inductive FileType : Type := image | video.

(** A [MediaStream] with the tracks [getTracks()] returns. *)
Record MediaStream := { streamId : nat; tracks : list nat }.

(** The [useState] cells. *)
Record State := {
  mode : Mode;
  fileType : option FileType;
  mediaSource : option string;
  cameraStream : option MediaStream;
  result : option AnalysisResult;
  analyzing : bool;
  error : option string;
  isVoiceEnabled : bool;
  isAutoScan : bool
}.

(** The [<video>] element: its intrinsic size, the stream attached to it and
    the current frame, already as the base64 JPEG [toDataURL] would give. *)
Record Video := {
  videoWidth : nat;
  videoHeight : nat;
  srcObject : option MediaStream;
  frame : string
}.

Record Canvas := { width : nat; height : nat; has2d : bool; pixels : string }.

(** A suspended [async] call: what it awaits and the render it closed over. *)
Inductive Task : Type :=
| AwaitCamera
| AwaitImage (c : State)
| AwaitAnalysis (c : State) (imageDataUrl : string).

Record World := {
  st : State;
  resultGen : nat;                    (* identity of the object in [result] *)
  videoRef : option Video;
  canvasRef : option Canvas;
  autoScanInterval : option nat;
  timers : list (nat * State);        (* intervals of the window, with the
                                         render whose captureAndAnalyze they call *)
  nextTimer : nat;
  speechSynthesis : option (list string);   (* None: the browser has no such API *)
  console : list string;
  stoppedTracks : list nat;
  pending : list (nat * Task);
  nextTask : nat;
  scheduledScans : nat                (* calls of captureAndAnalyze made by the interval *)
}.

(** *** Writing one field *)

Definition with_st (f : State -> State) (w : World) : World :=
  {| st := f (st w); resultGen := resultGen w; videoRef := videoRef w;
     canvasRef := canvasRef w; autoScanInterval := autoScanInterval w;
     timers := timers w; nextTimer := nextTimer w;
     speechSynthesis := speechSynthesis w; console := console w;
     stoppedTracks := stoppedTracks w; pending := pending w;
     nextTask := nextTask w; scheduledScans := scheduledScans w |}.

Definition with_resultGen (n : nat) (w : World) : World :=
  {| st := st w; resultGen := n; videoRef := videoRef w;
     canvasRef := canvasRef w; autoScanInterval := autoScanInterval w;
     timers := timers w; nextTimer := nextTimer w;
     speechSynthesis := speechSynthesis w; console := console w;
     stoppedTracks := stoppedTracks w; pending := pending w;
     nextTask := nextTask w; scheduledScans := scheduledScans w |}.

Definition with_videoRef (v : option Video) (w : World) : World :=
  {| st := st w; resultGen := resultGen w; videoRef := v;
     canvasRef := canvasRef w; autoScanInterval := autoScanInterval w;
     timers := timers w; nextTimer := nextTimer w;
     speechSynthesis := speechSynthesis w; console := console w;
     stoppedTracks := stoppedTracks w; pending := pending w;
     nextTask := nextTask w; scheduledScans := scheduledScans w |}.

Definition with_canvasRef (cv : option Canvas) (w : World) : World :=
  {| st := st w; resultGen := resultGen w; videoRef := videoRef w;
     canvasRef := cv; autoScanInterval := autoScanInterval w;
     timers := timers w; nextTimer := nextTimer w;
     speechSynthesis := speechSynthesis w; console := console w;
     stoppedTracks := stoppedTracks w; pending := pending w;
     nextTask := nextTask w; scheduledScans := scheduledScans w |}.

Definition with_autoScanInterval (r : option nat) (w : World) : World :=
  {| st := st w; resultGen := resultGen w; videoRef := videoRef w;
     canvasRef := canvasRef w; autoScanInterval := r;
     timers := timers w; nextTimer := nextTimer w;
     speechSynthesis := speechSynthesis w; console := console w;
     stoppedTracks := stoppedTracks w; pending := pending w;
     nextTask := nextTask w; scheduledScans := scheduledScans w |}.

Definition with_timers (ts : list (nat * State)) (n : nat) (w : World) : World :=
  {| st := st w; resultGen := resultGen w; videoRef := videoRef w;
     canvasRef := canvasRef w; autoScanInterval := autoScanInterval w;
     timers := ts; nextTimer := n;
     speechSynthesis := speechSynthesis w; console := console w;
     stoppedTracks := stoppedTracks w; pending := pending w;
     nextTask := nextTask w; scheduledScans := scheduledScans w |}.

Definition with_speech (q : option (list string)) (w : World) : World :=
  {| st := st w; resultGen := resultGen w; videoRef := videoRef w;
     canvasRef := canvasRef w; autoScanInterval := autoScanInterval w;
     timers := timers w; nextTimer := nextTimer w;
     speechSynthesis := q; console := console w;
     stoppedTracks := stoppedTracks w; pending := pending w;
     nextTask := nextTask w; scheduledScans := scheduledScans w |}.

Definition with_console (l : list string) (w : World) : World :=
  {| st := st w; resultGen := resultGen w; videoRef := videoRef w;
     canvasRef := canvasRef w; autoScanInterval := autoScanInterval w;
     timers := timers w; nextTimer := nextTimer w;
     speechSynthesis := speechSynthesis w; console := l;
     stoppedTracks := stoppedTracks w; pending := pending w;
     nextTask := nextTask w; scheduledScans := scheduledScans w |}.

Definition with_stoppedTracks (l : list nat) (w : World) : World :=
  {| st := st w; resultGen := resultGen w; videoRef := videoRef w;
     canvasRef := canvasRef w; autoScanInterval := autoScanInterval w;
     timers := timers w; nextTimer := nextTimer w;
     speechSynthesis := speechSynthesis w; console := console w;
     stoppedTracks := l; pending := pending w;
     nextTask := nextTask w; scheduledScans := scheduledScans w |}.

Definition with_pending (l : list (nat * Task)) (n : nat) (w : World) : World :=
  {| st := st w; resultGen := resultGen w; videoRef := videoRef w;
     canvasRef := canvasRef w; autoScanInterval := autoScanInterval w;
     timers := timers w; nextTimer := nextTimer w;
     speechSynthesis := speechSynthesis w; console := console w;
     stoppedTracks := stoppedTracks w; pending := l;
     nextTask := n; scheduledScans := scheduledScans w |}.

Definition with_scheduledScans (n : nat) (w : World) : World :=
  {| st := st w; resultGen := resultGen w; videoRef := videoRef w;
     canvasRef := canvasRef w; autoScanInterval := autoScanInterval w;
     timers := timers w; nextTimer := nextTimer w;
     speechSynthesis := speechSynthesis w; console := console w;
     stoppedTracks := stoppedTracks w; pending := pending w;
     nextTask := nextTask w; scheduledScans := n |}.

(** *** The setters of the state cells *)

Definition setMode (m : Mode) : World -> World :=
  with_st (fun s =>
    {| mode := m; fileType := fileType s; mediaSource := mediaSource s;
       cameraStream := cameraStream s; result := result s; analyzing := analyzing s;
       error := error s; isVoiceEnabled := isVoiceEnabled s; isAutoScan := isAutoScan s |}).

Definition setFileType (t : option FileType) : World -> World :=
  with_st (fun s =>
    {| mode := mode s; fileType := t; mediaSource := mediaSource s;
       cameraStream := cameraStream s; result := result s; analyzing := analyzing s;
       error := error s; isVoiceEnabled := isVoiceEnabled s; isAutoScan := isAutoScan s |}).

Definition setMediaSource (u : option string) : World -> World :=
  with_st (fun s =>
    {| mode := mode s; fileType := fileType s; mediaSource := u;
       cameraStream := cameraStream s; result := result s; analyzing := analyzing s;
       error := error s; isVoiceEnabled := isVoiceEnabled s; isAutoScan := isAutoScan s |}).

Definition setCameraStream (m : option MediaStream) : World -> World :=
  with_st (fun s =>
    {| mode := mode s; fileType := fileType s; mediaSource := mediaSource s;
       cameraStream := m; result := result s; analyzing := analyzing s;
       error := error s; isVoiceEnabled := isVoiceEnabled s; isAutoScan := isAutoScan s |}).

(** [setResult(analysis)] stores a fresh object; [setResult(null)] does not. *)
Definition setResult (r : option AnalysisResult) (w : World) : World :=
  let w' := with_st (fun s =>
    {| mode := mode s; fileType := fileType s; mediaSource := mediaSource s;
       cameraStream := cameraStream s; result := r; analyzing := analyzing s;
       error := error s; isVoiceEnabled := isVoiceEnabled s; isAutoScan := isAutoScan s |}) w in
  match r with
  | Some _ => with_resultGen (S (resultGen w)) w'
  | None => w'
  end.

Definition setAnalyzing (b : bool) : World -> World :=
  with_st (fun s =>
    {| mode := mode s; fileType := fileType s; mediaSource := mediaSource s;
       cameraStream := cameraStream s; result := result s; analyzing := b;
       error := error s; isVoiceEnabled := isVoiceEnabled s; isAutoScan := isAutoScan s |}).

Definition setError (e : option string) : World -> World :=
  with_st (fun s =>
    {| mode := mode s; fileType := fileType s; mediaSource := mediaSource s;
       cameraStream := cameraStream s; result := result s; analyzing := analyzing s;
       error := e; isVoiceEnabled := isVoiceEnabled s; isAutoScan := isAutoScan s |}).

Definition setIsVoiceEnabled (b : bool) : World -> World :=
  with_st (fun s =>
    {| mode := mode s; fileType := fileType s; mediaSource := mediaSource s;
       cameraStream := cameraStream s; result := result s; analyzing := analyzing s;
       error := error s; isVoiceEnabled := b; isAutoScan := isAutoScan s |}).

Definition setIsAutoScan (b : bool) : World -> World :=
  with_st (fun s =>
    {| mode := mode s; fileType := fileType s; mediaSource := mediaSource s;
       cameraStream := cameraStream s; result := result s; analyzing := analyzing s;
       error := error s; isVoiceEnabled := isVoiceEnabled s; isAutoScan := b |}).

(** *** The browser *)

Definition console_error (line : string) (w : World) : World :=
  with_console (console w ++ [line]) w.

Definition spawn (t : Task) (w : World) : World :=
  with_pending (pending w ++ [(nextTask w, t)]) (S (nextTask w)) w.

Fixpoint take {A : Type} (id : nat) (l : list (nat * A)) : option (A * list (nat * A)) :=
  match l with
  | [] => None
  | (i, a) :: l' =>
      if Nat.eqb i id then Some (a, l')
      else match take id l' with
           | Some (b, rest) => Some (b, (i, a) :: rest)
           | None => None
           end
  end.

Definition clearInterval (id : nat) (w : World) : World :=
  with_timers (filter (fun t => negb (Nat.eqb (fst t) id)) (timers w)) (nextTimer w) w.

(** [window.setInterval(() => { captureAndAnalyze(); }, 4000)] in the render [c]. *)
Definition setInterval (c : State) (w : World) : nat * World :=
  (nextTimer w, with_timers (timers w ++ [(nextTimer w, c)]) (S (nextTimer w)) w).

Definition speech_cancel (w : World) : World :=
  match speechSynthesis w with
  | Some _ => with_speech (Some []) w
  | None => w
  end.

Definition stopTracks (m : MediaStream) (w : World) : World :=
  with_stoppedTracks (stoppedTracks w ++ tracks m) w.

(** *** Voice *)

(** [speak], as memoised in a render where [isVoiceEnabled] was [enabled].
    Every utterance has rate 1.1 and pitch 1.0; the queue keeps the text. *)
Definition speak (enabled : bool) (text : string) (priority : bool) (w : World) : World :=
  if negb enabled then w
  else
    match speechSynthesis w with
    | None => w
    | Some q =>
        let q' := if priority then [] else q in
        with_speech (Some (q' ++ [text])%list) w
    end.

(** The effect on [[result, isVoiceEnabled, speak, isAutoScan]]. *)
Definition voiceEffect (s : State) (w : World) : World :=
  match result s with
  | Some r =>
      if isVoiceEnabled s then
        if String.eqb (safetyLevel r) "DANGER" then
          speak (isVoiceEnabled s) ("Warning. " ++ recommendation r) true w
        else if String.eqb (safetyLevel r) "CAUTION" then
          speak (isVoiceEnabled s) ("Caution. " ++ recommendation r) false w
        else if negb (isAutoScan s) then
          speak (isVoiceEnabled s) (recommendation r) false w
        else w
      else w
  | None => w
  end.

(** The voice button. *)
Definition toggleVoice (c : State) (w : World) : World :=
  let newState := negb (isVoiceEnabled c) in
  let w1 := setIsVoiceEnabled newState w in
  if negb newState then speech_cancel w1 else w1.

(** *** Camera *)

Definition startCamera (w : World) : World := spawn AwaitCamera w.

(** After [await navigator.mediaDevices.getUserMedia(...)]; [None] is the
    rejection. *)
Definition startCamera_settled (outcome : option MediaStream) (w : World) : World :=
  match outcome with
  | Some stream =>
      setResult None
        (setError None
           (setFileType (Some video)
              (setMode camera (setCameraStream (Some stream) w))))
  | None =>
      setError (Some "Could not access camera. Check permissions or try a different browser.")
        (console_error "Error accessing camera:" w)
  end.

Definition stopCamera (c : State) (w : World) : World :=
  let w1 :=
    match cameraStream c with
    | Some stream => setCameraStream None (stopTracks stream w)
    | None => w
    end in
  match videoRef w1 with
  | Some v =>
      with_videoRef
        (Some {| videoWidth := videoWidth v; videoHeight := videoHeight v;
                 srcObject := None; frame := frame v |}) w1
  | None => w1
  end.

(** The effect on [[mode, cameraStream]]. *)
Definition attachEffect (s : State) (w : World) : World :=
  match mode s, cameraStream s, videoRef w with
  | camera, Some stream, Some v =>
      with_videoRef
        (Some {| videoWidth := videoWidth v; videoHeight := videoHeight v;
                 srcObject := Some stream; frame := frame v |}) w
  | _, _, _ => w
  end.

(** *** File upload: [e.target.files?.[0]] with its object URL and MIME type *)

Definition handleFileUpload (file : option (string * string)) (w : World) : World :=
  match file with
  | Some (url, mime) =>
      let w1 := setError None (setResult None (setMode upload (setMediaSource (Some url) w))) in
      if starts_with "video/" mime then setFileType (Some video) w1
      else setFileType (Some image) w1
  | None => w
  end.

(** *** Analysis *)

(** From [if (imageDataUrl)] to the [await] of [analyzeRoadScene]. *)
Definition submit (c : State) (imageDataUrl : option string) (w : World) : World :=
  match imageDataUrl with
  | Some url =>
      if truthy url then spawn (AwaitAnalysis c url) (setAnalyzing true w) else w
  | None => w
  end.

(** [captureAndAnalyze] up to its first [await] (or its return). *)
Definition captureAndAnalyze (c : State) (w : World) : World :=
  if analyzing c then w
  else
    match fileType c, videoRef w, canvasRef w with
    | Some video, Some v, Some cv =>
        if Nat.eqb (videoWidth v) 0 || Nat.eqb (videoHeight v) 0 then w
        else
          let sized := {| width := videoWidth v; height := videoHeight v;
                          has2d := has2d cv; pixels := "" |} in
          if has2d cv then
            let drawn := {| width := width sized; height := height sized;
                            has2d := true; pixels := frame v |} in
            submit c (Some ("data:image/jpeg;base64," ++ pixels drawn))
              (with_canvasRef (Some drawn) w)
          else submit c None (with_canvasRef (Some sized) w)
    | _, _, _ =>
        match fileType c with
        | Some image => if truthy_opt (mediaSource c) then spawn (AwaitImage c) w else w
        | _ => submit c None w
        end
    end.

(** The image branch after [fetch], [blob()] and the [FileReader]: [None]
    when any of them failed and the [catch] of that branch ran. *)
Definition captureAndAnalyze_image (c : State) (outcome : option string) (w : World) : World :=
  match outcome with
  | Some url => submit c (Some url) w
  | None => console_error "Error converting image to base64:" w
  end.

(** The promise of [analyzeRoadScene] settles.  A rejection went through the
    [catch] of the client (geminiService.ts), which logs it, label and error
    on one line, and throws it again; the page awaiting the promise then
    runs on with the same error. *)
Definition analyzeRoadScene_settled (outcome : string + AnalysisResult) (w : World) : World :=
  match outcome with
  | inl err => console_error ("Gemini Analysis Error: " ++ err) w
  | inr _ => w
  end.

(** After [await analyzeRoadScene(imageDataUrl)]: [inl] is the rejection. *)
Definition captureAndAnalyze_settled (c : State) (outcome : string + AnalysisResult)
    (w : World) : World :=
  let w1 :=
    match outcome with
    | inr analysis => setError None (setResult (Some analysis) w)
    | inl err =>
        let w0 := console_error err w in
        if negb (isAutoScan c) then setError (Some "Analysis failed. Try again.") w0
        else w0
    end in
  setAnalyzing false w1.

(** *** Auto scan *)

Definition ref_truthy (r : option nat) : option nat :=
  match r with
  | Some id => if Nat.eqb id 0 then None else Some id
  | None => None
  end.

(** The function the auto-scan effect returns. *)
Definition autoScanCleanup (w : World) : World :=
  match ref_truthy (autoScanInterval w) with
  | Some id => clearInterval id w
  | None => w
  end.

(** The effect on [[isAutoScan, fileType, mediaSource, mode, cameraStream]]. *)
Definition autoScanEffect (s : State) (w : World) : World :=
  if isAutoScan s then
    let (id, w') := setInterval s w in
    with_autoScanInterval (Some id) w'
  else
    match ref_truthy (autoScanInterval w) with
    | Some id => with_autoScanInterval None (clearInterval id w)
    | None => w
    end.

Definition reset (c : State) (w : World) : World :=
  setError None
    (setFileType None
       (setResult None
          (setMediaSource None
             (setMode initial
                (setIsAutoScan false (stopCamera c w)))))).

(** *** Render and commit *)

Definition Mode_eqb (a b : Mode) : bool :=
  match a, b with
  | initial, initial | camera, camera | upload, upload => true
  | _, _ => false
  end.

Definition FileType_eqb (a b : FileType) : bool :=
  match a, b with
  | image, image | video, video => true
  | _, _ => false
  end.

Definition option_eqb {A : Type} (eqb : A -> A -> bool) (a b : option A) : bool :=
  match a, b with
  | Some x, Some y => eqb x y
  | None, None => true
  | _, _ => false
  end.

Definition same_stream (a b : MediaStream) : bool := Nat.eqb (streamId a) (streamId b).

Definition is_some {A : Type} (o : option A) : bool :=
  match o with Some _ => true | None => false end.

(** [renderVisualizer] mounts the [<video>] element in these renders. *)
Definition videoMounted (s : State) : bool :=
  negb (Mode_eqb (mode s) initial) && option_eqb FileType_eqb (fileType s) (Some video).

Definition blankVideo : Video :=
  {| videoWidth := 0; videoHeight := 0; srcObject := None; frame := "" |}.

Definition voiceDeps_same (prev w : World) : bool :=
  Nat.eqb (resultGen prev) (resultGen w)
  && Bool.eqb (is_some (result (st prev))) (is_some (result (st w)))
  && Bool.eqb (isVoiceEnabled (st prev)) (isVoiceEnabled (st w))
  && Bool.eqb (isAutoScan (st prev)) (isAutoScan (st w)).

Definition attachDeps_same (p s : State) : bool :=
  Mode_eqb (mode p) (mode s)
  && option_eqb same_stream (cameraStream p) (cameraStream s).

Definition autoScanDeps_same (p s : State) : bool :=
  Bool.eqb (isAutoScan p) (isAutoScan s)
  && option_eqb FileType_eqb (fileType p) (fileType s)
  && option_eqb String.eqb (mediaSource p) (mediaSource s)
  && Mode_eqb (mode p) (mode s)
  && option_eqb same_stream (cameraStream p) (cameraStream s).

(** React renders the cells written since [prev], attaches the refs, runs
    the clean-up of every effect whose dependencies changed and then the
    effects themselves, in the order of their declaration. *)
Definition commit (prev w : World) : World :=
  let s := st w in
  let w1 :=
    if Bool.eqb (videoMounted (st prev)) (videoMounted s) then w
    else with_videoRef (if videoMounted s then Some blankVideo else None) w in
  let w2 := if autoScanDeps_same (st prev) s then w1 else autoScanCleanup w1 in
  let w3 := if voiceDeps_same prev w then w2 else voiceEffect s w2 in
  let w4 := if attachDeps_same (st prev) s then w3 else attachEffect s w3 in
  if autoScanDeps_same (st prev) s then w4 else autoScanEffect s w4.

(** *** The events of the page *)

Inductive Event : Type :=
| ClickLiveCamera
| CameraSettled (id : nat) (outcome : option MediaStream)
| FileChosen (file : option (string * string))
| ClickScan
| ClickAuto
| ClickReset
| ClickVoice
| Tick (id : nat)
| ImageSettled (id : nat) (outcome : option string)
| AnalysisSettled (id : nat) (outcome : string + AnalysisResult)
| VideoFrame (w h : nat) (data : string)
| SpeechEnded.

(** The buttons a render shows. *)
Definition scanButton (c : State) : bool :=
  negb (Mode_eqb (mode c) initial) && negb (isAutoScan c) && negb (analyzing c).

Definition autoButton (c : State) : bool :=
  negb (Mode_eqb (mode c) initial) && option_eqb FileType_eqb (fileType c) (Some video).

Definition resetButton (c : State) : bool := negb (Mode_eqb (mode c) initial).

Definition find_timer (id : nat) (w : World) : option State :=
  match take id (timers w) with
  | Some (c, _) => Some c
  | None => None
  end.

(** One task of the event loop, run against the last render. *)
Definition handle (e : Event) (w : World) : World :=
  let c := st w in
  match e with
  | ClickLiveCamera => if Mode_eqb (mode c) initial then startCamera w else w
  | CameraSettled id outcome =>
      match take id (pending w) with
      | Some (AwaitCamera, rest) =>
          startCamera_settled outcome (with_pending rest (nextTask w) w)
      | _ => w
      end
  | FileChosen file => handleFileUpload file w
  | ClickScan => if scanButton c then captureAndAnalyze c w else w
  | ClickAuto => if autoButton c then setIsAutoScan (negb (isAutoScan c)) w else w
  | ClickReset => if resetButton c then reset c w else w
  | ClickVoice => toggleVoice c w
  | Tick id =>
      match find_timer id w with
      | Some closure =>
          captureAndAnalyze closure (with_scheduledScans (S (scheduledScans w)) w)
      | None => w
      end
  | ImageSettled id outcome =>
      match take id (pending w) with
      | Some (AwaitImage c', rest) =>
          captureAndAnalyze_image c' outcome (with_pending rest (nextTask w) w)
      | _ => w
      end
  | AnalysisSettled id outcome =>
      match take id (pending w) with
      | Some (AwaitAnalysis c' _, rest) =>
          captureAndAnalyze_settled c' outcome
            (analyzeRoadScene_settled outcome (with_pending rest (nextTask w) w))
      | _ => w
      end
  | VideoFrame wd ht data =>
      match videoRef w with
      | Some v =>
          with_videoRef
            (Some {| videoWidth := wd; videoHeight := ht;
                     srcObject := srcObject v; frame := data |}) w
      | None => w
      end
  | SpeechEnded =>
      match speechSynthesis w with
      | Some (_ :: q) => with_speech (Some q) w
      | _ => w
      end
  end.

Definition step (e : Event) (w : World) : World := commit w (handle e w).

Fixpoint run (es : list Event) (w : World) : World :=
  match es with
  | [] => w
  | e :: es' => run es' (step e w)
  end.

Definition initialState : State :=
  {| mode := initial; fileType := None; mediaSource := None; cameraStream := None;
     result := None; analyzing := false; error := None;
     isVoiceEnabled := false; isAutoScan := false |}.

(** The page after the first render, in a browser with or without speech
    synthesis. *)
Definition init (speech : bool) : World :=
  {| st := initialState; resultGen := 0; videoRef := None;
     canvasRef := Some {| width := 300; height := 150; has2d := true; pixels := "" |};
     autoScanInterval := None; timers := []; nextTimer := 1;
     speechSynthesis := if speech then Some [] else None;
     console := []; stoppedTracks := []; pending := []; nextTask := 0;
     scheduledScans := 0 |}.

(** Unmounting runs the clean-up of the auto-scan effect and the clean-up
    registered with no dependencies, which closed over the first render. *)
Definition unmount (w : World) : World :=
  let w1 :=
    match cameraStream initialState with
    | Some stream => stopTracks stream w
    | None => w
    end in
  autoScanCleanup (autoScanCleanup w1).

(** The analysis-client calls in flight. *)
Definition isAnalysis (t : nat * Task) : bool :=
  match snd t with AwaitAnalysis _ _ => true | _ => false end.

Definition activeAnalyses (w : World) : nat := length (filter isAnalysis (pending w)).

(** The part of the world that no effect writes. *)
Definition outsideEffects (w : World) :=
  (st w, resultGen w, canvasRef w, console w, stoppedTracks w, pending w, nextTask w,
   scheduledScans w).

(** The part of the world the auto-scan effect works on. *)
Definition timerPart (w : World) := (timers w, nextTimer w, autoScanInterval w).

(** The reset button, whatever the render shows: handler, then commit. *)
Definition resetClicked (w : World) : World := commit w (reset (st w) w).

(** Whether the speech queue holds an utterance of this text. *)
Definition spoken (text : string) (w : World) : bool :=
  match speechSynthesis w with
  | Some q => existsb (String.eqb text) q
  | None => false
  end.

(** The interval timers are tidy: while auto-scan is on there is exactly one,
    the one [autoScanInterval] names, calling a render in which auto-scan was
    on; while it is off there is none and the ref is empty. *)
Definition timersTidy (w : World) : Prop :=
  1 <= nextTimer w
  /\ (isAutoScan (st w) = true -> mode (st w) <> initial)
  /\ if isAutoScan (st w)
     then exists id c,
            timers w = [(id, c)] /\ autoScanInterval w = Some id
            /\ 1 <= id < nextTimer w /\ isAutoScan c = true
     else timers w = [] /\ autoScanInterval w = None.

Fixpoint noClickAuto (es : list Event) : bool :=
  match es with
  | [] => true
  | ClickAuto :: _ => false
  | _ :: es' => noClickAuto es'
  end.

End App.

(** ** Scenarios *)

Module Scenario.

Import Types.
Import App.

Definition slowDown (level : string) : AnalysisResult :=
  {| signs := [];
     hazards := [{| hazard_type := "Pothole"; severity := "HIGH"; description := "..." |}];
     safetyLevel := level;
     recommendation := "Slow down";
     timestamp := "10:15:00 AM" |}.

Definition pngUrl : string := "data:image/png;base64,iVBORw0KGgo=".

Definition uploadImage : Event := FileChosen (Some ("blob:nexvue/1", "image/png")).

Definition uploadVideo : Event := FileChosen (Some ("blob:nexvue/2", "video/mp4")).

(** A still image is uploaded and SCAN is clicked twice before the image
    has been read; then both reads complete. *)
Definition doubleClick : list Event :=
  [uploadImage; ClickScan; ClickScan;
   ImageSettled 0 (Some pngUrl); ImageSettled 1 (Some pngUrl)].

(** A video is uploaded and plays, AUTO is clicked, and the interval fires
    twice while the first analysis has not come back. *)
Definition slowAutoScan : list Event :=
  [uploadVideo; VideoFrame 640 480 "/9j/4AAQSkZJRg=="; ClickAuto; Tick 1; Tick 1].

(** Voice is switched on, a still image is uploaded and scanned once, and
    the analysis comes back with the given safety level. *)
Definition voicedScan (level : string) : list Event :=
  [ClickVoice; uploadImage; ClickScan; ImageSettled 0 (Some pngUrl);
   AnalysisSettled 1 (inr (slowDown level))].

(** The same, followed by a second scan whose image has been read and
    whose analysis is in flight while the first recommendation is spoken. *)
Definition scanWhileSpeaking : list Event :=
  (voicedScan "SAFE" ++ [ClickScan; ImageSettled 2 (Some pngUrl)])%list.

(** A playing video is scanned by hand, and AUTO is clicked while the
    analysis is in flight. *)
Definition manualThenAuto : list Event :=
  [uploadVideo; VideoFrame 640 480 "/9j/4AAQSkZJRg=="; ClickScan; ClickAuto].

(** A playing video is under auto-scan; a tick starts an analysis, and STOP
    is clicked while it is in flight. *)
Definition autoThenStop : list Event :=
  [uploadVideo; VideoFrame 640 480 "/9j/4AAQSkZJRg=="; ClickAuto; Tick 1; ClickAuto].

(** A video plays under auto-scan with voice on; one tick has captured a
    frame and its analysis is in flight. *)
Definition voicedAutoScan : list Event :=
  [ClickVoice; uploadVideo; VideoFrame 640 480 "/9j/4AAQSkZJRg=="; ClickAuto; Tick 1].

End Scenario.

(** ** components/AnalysisPanel.tsx

    What the panel renders, without the markup: which of its three views,
    and for a report the colour classes, the icon and the badge of a
    hazard.  The icon is looked up in an object literal with
    [result.safetyLevel] as the key, and what the lookup gives is used as
    the type of an element. *)

Module AnalysisPanel.

Import Types.

Inductive Icon : Type := ShieldCheck | ShieldAlert | AlertTriangle.

Definition fallbackColor : string := "text-gray-400 border-gray-400".

(** The [switch] of [getSafetyColor], with its [default]. *)
Definition getSafetyColor (level : string) : string :=
  if String.eqb level "SAFE" then
    "text-hud-green border-hud-green shadow-[0_0_15px_rgba(0,255,157,0.2)]"
  else if String.eqb level "CAUTION" then
    "text-hud-amber border-hud-amber shadow-[0_0_15px_rgba(255,174,0,0.2)]"
  else if String.eqb level "DANGER" then
    "text-hud-red border-hud-red shadow-[0_0_15px_rgba(255,42,42,0.2)]"
  else fallbackColor.

(** The names an object literal inherits from [Object.prototype]. *)
Definition inherited : list string :=
  ["constructor"; "hasOwnProperty"; "isPrototypeOf"; "propertyIsEnumerable";
   "toLocaleString"; "toString"; "valueOf"; "__proto__";
   "__defineGetter__"; "__defineSetter__"; "__lookupGetter__"; "__lookupSetter__"].

(** What indexing the table of icons gives: one of its own three entries,
    a member found on the prototype, or [undefined]. *)
Inductive ElementType : Type :=
| Component (icon : Icon)
| Inherited (member : string)
| Undefined.

(** [{SAFE: ShieldCheck, CAUTION: ShieldAlert, DANGER: AlertTriangle}[level]] *)
Definition SafetyIcon (level : string) : ElementType :=
  if String.eqb level "SAFE" then Component ShieldCheck
  else if String.eqb level "CAUTION" then Component ShieldAlert
  else if String.eqb level "DANGER" then Component AlertTriangle
  else if existsb (String.eqb level) inherited then Inherited level
  else Undefined.

(** The classes of the severity badge of a hazard. *)
Definition severityBadge (severity : string) : string :=
  if String.eqb severity "HIGH" then "bg-red-600 text-white"
  else if String.eqb severity "MEDIUM" then "bg-orange-600 text-white"
  else "bg-yellow-600 text-black".

(** The outcome of rendering the panel.  The report holds the element
    [<SafetyIcon className=... />]: with an icon component as its type it
    is drawn ([Report]); with [undefined] as its type React throws while
    rendering it, and the page, which has no error boundary, is unmounted
    ([Throws]); with an inherited member as its type React is handed that
    member in place of an icon ([Stray]). *)
Inductive View : Type :=
| Processing
| NoTelemetry
| Report (r : AnalysisResult) (icon : Icon)
| Throws (r : AnalysisResult)
| Stray (r : AnalysisResult) (member : string).

(** [if (loading) ...; if (!result) ...; return the report]. *)
Definition render (result : option AnalysisResult) (loading : bool) : View :=
  if loading then Processing
  else match result with
       | None => NoTelemetry
       | Some r =>
           match SafetyIcon (safetyLevel r) with
           | Component icon => Report r icon
           | Inherited member => Stray r member
           | Undefined => Throws r
           end
       end.

End AnalysisPanel.

(** ** Event sequences *)

Module Traces.

Import Types.
Import App.

(** [<AnalysisPanel result={result} loading={analyzing} />] *)
Definition panel (w : World) : AnalysisPanel.View :=
  AnalysisPanel.render (result (st w)) (analyzing (st w)).

(** The render a suspended [captureAndAnalyze] closed over. *)
Definition closure_of (t : Task) : option State :=
  match t with
  | AwaitCamera => None
  | AwaitImage c => Some c
  | AwaitAnalysis c _ => Some c
  end.

Definition isImageTask (t : nat * Task) : bool :=
  match snd t with AwaitImage _ => true | _ => false end.

(** Events of a session in which AUTO is never clicked and every uploaded
    file is a video. *)
Definition videoManual (e : Event) : bool :=
  match e with
  | ClickAuto => false
  | FileChosen (Some (_, mime)) => starts_with "video/" mime
  | _ => true
  end.

(** The scans of such a session are serialized: an analysis is in flight
    exactly while [analyzing] is set, no image is being read, and no timer
    runs. *)
Definition serialized (w : World) : Prop :=
  isAutoScan (st w) = false
  /\ timers w = []
  /\ fileType (st w) <> Some image
  /\ length (filter isImageTask (pending w)) = 0
  /\ activeAnalyses w = if analyzing (st w) then 1 else 0.

(** How one task moves the in-flight flag and the number of analyses in
    flight: not at all, or a call is submitted, or a call settles. *)
Definition flagMoves (w w' : World) : Prop :=
  (analyzing (st w') = analyzing (st w) /\ activeAnalyses w' = activeAnalyses w)
  \/ (analyzing (st w') = true /\ activeAnalyses w' = S (activeAnalyses w))
  \/ (analyzing (st w') = false /\ activeAnalyses w = S (activeAnalyses w')).

(** Every interval timer calls a render that agrees with the current cells
    on the dependencies of the auto-scan effect. *)
Definition timersFresh (w : World) : Prop :=
  forall id c, In (id, c) (timers w) -> autoScanDeps_same c (st w) = true.

Definition frontCamera : MediaStream := {| streamId := 7; tracks := [70; 71] |}.

(** The camera is granted and a frame is scanned by hand. *)
Definition cameraScan : list Event :=
  [ClickLiveCamera; CameraSettled 0 (Some frontCamera);
   VideoFrame 1280 720 "/9j/4AAQSkZJRg=="; ClickScan].

(** A playing video is scanned by hand, AUTO is clicked while the analysis
    is in flight, and the analysis comes back. *)
Definition autoDuringScan : list Event :=
  (Scenario.manualThenAuto
     ++ [AnalysisSettled 0 (inr (Scenario.slowDown "SAFE"))])%list.

End Traces.

(** * Properties *)

(** ** Strings and objects *)

Lemma strip_prefix_app (p rest : string) : strip_prefix p (p ++ rest) = Some rest.
Proof.
  induction p as [|a p IH]; simpl; [reflexivity|].
  now rewrite Ascii.eqb_refl.
Qed.

Lemma strip_prefix_sound (p s rest : string) :
  strip_prefix p s = Some rest -> s = p ++ rest.
Proof.
  revert s; induction p as [|a p IH]; intros s H; simpl in *.
  - now inversion H.
  - destruct s as [|b s]; [discriminate|].
    destruct (Ascii.eqb_spec a b) as [->|]; [|discriminate].
    now rewrite (IH _ H).
Qed.

Lemma obj_get_set_same k v o : obj_get k (obj_set k v o) = Some v.
Proof.
  induction o as [|[k' v'] o IH]; simpl.
  - now rewrite String.eqb_refl.
  - destruct (String.eqb k k') eqn:E; simpl; rewrite E; [reflexivity|exact IH].
Qed.

Lemma obj_get_set_other k k' v o :
  String.eqb k k' = false -> obj_get k (obj_set k' v o) = obj_get k o.
Proof.
  intros Hk. induction o as [|[k2 v2] o IH]; simpl.
  - now rewrite Hk.
  - destruct (String.eqb k' k2) eqn:E; simpl.
    + apply String.eqb_eq in E; subst k2. now rewrite Hk.
    + now rewrite IH.
Qed.

(** ** The JSON reader on examples *)

Example JSON_parse_object :
  JSON_parse (dq "{ 'a' : [1, -2.5e3, true, null], 'b' : {'c': 'x\ny'}, 'a' : 'last' }")
  = Some (JObject [("a", JString "last");
                   ("b", JObject [("c", JString (String "x" (String (ascii_of_nat 10) "y")))])]).
Proof. vm_compute. reflexivity. Qed.

Example JSON_parse_rejects :
  map JSON_parse [""; "{"; "[1,]"; "01"; "1."; dq "{'a' 1}"; "tru"; dq "{'a':1} x"; dq "'\x'"]
  = [None; None; None; None; None; None; None; None; None].
Proof. vm_compute. reflexivity. Qed.

(** ** The analysis client *)

Section AnalysisClientFacts.

Import GeminiService.

Variable generateContent : GenerateContentParameters -> Reply.
Variable parse : string -> option json.
Variable now : string.

(** The four listed formats lose their prefix. *)
Lemma cleanBase64_listed (format rest : string) :
  In format image_formats -> cleanBase64 (data_url_prefix format ++ rest) = rest.
Proof.
  unfold image_formats. simpl.
  intros [<-|[<-|[<-|[<-|[]]]]]; reflexivity.
Qed.

(** A payload that matches none of them is sent as it came. *)
Lemma cleanBase64_other (s : string) :
  match_data_url image_formats s = None -> cleanBase64 s = s.
Proof. unfold cleanBase64. now intros ->. Qed.

(** What is transmitted is the cleaned payload. *)
Lemma request_data (s : string) : data (inlineData (request s)) = cleanBase64 s.
Proof. reflexivity. Qed.

Lemma rejects_cases (img : string) :
  rejects generateContent parse now img
  = network_fails generateContent img
    || no_body generateContent img
    || body_not_json generateContent parse img.
Proof.
  unfold rejects, no_body, body_not_json, body, network_fails, analyzeRoadScene.
  destruct (generateContent (request img)) as [reason|[b|]]; simpl; try reflexivity.
  destruct (truthy b); simpl; [|reflexivity].
  destruct (parse b); reflexivity.
Qed.

Lemma resolves_with (img b : string) (v : json) :
  body generateContent img = Some b ->
  parse b = Some v ->
  analyzeRoadScene generateContent parse now img
  = ([], inr (obj_set "timestamp" (JString now) (spread v))).
Proof.
  unfold body, analyzeRoadScene.
  destruct (generateContent (request img)) as [reason|[b'|]]; try discriminate.
  destruct (truthy b') eqn:T; [|discriminate].
  intros [= ->] ->. reflexivity.
Qed.

End AnalysisClientFacts.

(** C7, at the failing input: the data URL of an uploaded GIF, as
    [FileReader.readAsDataURL] produces it, is transmitted with its
    [data:image/gif;base64,] prefix still in front, because the expression
    of [cleanBase64] lists only png, jpeg, jpg and webp. *)
Theorem cleanBase64_keeps_gif_prefix :
  GeminiService.data
    (GeminiService.inlineData
       (GeminiService.request "data:image/gif;base64,R0lGODlhAQABAAAAACw="))
  = "data:image/gif;base64,R0lGODlhAQABAAAAACw="
  /\ starts_with "data:image/gif;base64,"
       (GeminiService.cleanBase64 "data:image/gif;base64,R0lGODlhAQABAAAAACw=") = true.
Proof. split; reflexivity. Qed.

(** C8, as amended: [analyzeRoadScene] rejects exactly when the network call
    fails, the reply has no (or an empty) body, or [JSON.parse] rejects the
    body.  A body that parses resolves the call, whatever its shape: the
    result is the parsed value's own properties with [timestamp] set, so
    every other property (a [safetyLevel] outside the enumeration included)
    is passed through as it was read. *)
Theorem analyzeRoadScene_rejects_iff
    (generateContent : GeminiService.GenerateContentParameters -> GeminiService.Reply)
    (parse : string -> option json) (now img : string) :
  (GeminiService.rejects generateContent parse now img = true
   <-> GeminiService.network_fails generateContent img = true
       \/ GeminiService.no_body generateContent img = true
       \/ GeminiService.body_not_json generateContent parse img = true)
  /\ (forall b v,
        GeminiService.body generateContent img = Some b ->
        parse b = Some v ->
        exists o,
          snd (GeminiService.analyzeRoadScene generateContent parse now img) = inr o
          /\ obj_get "timestamp" o = Some (JString now)
          /\ forall k, String.eqb k "timestamp" = false ->
                       obj_get k o = obj_get k (GeminiService.spread v)).
Proof.
  split.
  - rewrite rejects_cases, !orb_true_iff. tauto.
  - intros b v Hb Hv.
    exists (obj_set "timestamp" (JString now) (GeminiService.spread v)).
    rewrite (resolves_with _ _ _ _ _ _ Hb Hv). simpl.
    split; [reflexivity|]. split.
    + apply obj_get_set_same.
    + intros k Hk. now apply obj_get_set_other.
Qed.

(** The reply [{}] is JSON, has none of the required fields, and resolves. *)
Lemma analyzeRoadScene_accepts_empty_object :
  ~ (GeminiService.rejects
       (fun _ => GeminiService.Response (Some "{}")) JSON_parse "10:15:00 AM" "AAAA" = true
     <-> GeminiService.network_fails
           (fun _ => GeminiService.Response (Some "{}")) "AAAA" = true
         \/ GeminiService.no_body
              (fun _ => GeminiService.Response (Some "{}")) "AAAA" = true
         \/ GeminiService.body_not_matching_schema
              (fun _ => GeminiService.Response (Some "{}")) JSON_parse "AAAA" = true).
Proof.
  intros [_ H].
  assert (E : GeminiService.rejects
                (fun _ => GeminiService.Response (Some "{}")) JSON_parse "10:15:00 AM" "AAAA"
              = false) by (vm_compute; reflexivity).
  rewrite E in H.
  assert (F : false = true) by (apply H; right; right; vm_compute; reflexivity).
  discriminate F.
Qed.

(** On a concrete reply whose [safetyLevel] is outside the enumeration. *)
Lemma analyzeRoadScene_passes_bad_enum :
  GeminiService.analyzeRoadScene
    (fun _ => GeminiService.Response
                (Some (dq "{'signs':[],'hazards':[],'safetyLevel':'BANANA','recommendation':'go'}")))
    JSON_parse "10:15:00 AM" "AAAA"
  = ([], inr [("signs", JArray []); ("hazards", JArray []);
              ("safetyLevel", JString "BANANA"); ("recommendation", JString "go");
              ("timestamp", JString "10:15:00 AM")]).
Proof. vm_compute. reflexivity. Qed.

(** ** The component *)

Import Types.
Import App.

Arguments String.eqb : simpl never.

Ltac cases :=
  repeat match goal with
         | |- context [if ?b then _ else _] => destruct b
         | |- context [match ?x with _ => _ end] => destruct x
         end.

(** *** Dependency comparisons *)

Lemma Mode_eqb_refl (m : Mode) : Mode_eqb m m = true.
Proof. now destruct m. Qed.

Lemma Mode_eqb_eq (a b : Mode) : Mode_eqb a b = true <-> a = b.
Proof. destruct a, b; simpl; split; congruence. Qed.

Lemma FileType_eqb_refl (t : FileType) : FileType_eqb t t = true.
Proof. now destruct t. Qed.

Lemma option_eqb_refl {A : Type} (eqb : A -> A -> bool) (o : option A) :
  (forall a, eqb a a = true) -> option_eqb eqb o o = true.
Proof. intros H. destruct o; simpl; auto. Qed.

Lemma same_stream_refl (m : MediaStream) : same_stream m m = true.
Proof. apply Nat.eqb_refl. Qed.

Lemma autoScanDeps_same_fields (p s : State) :
  isAutoScan p = isAutoScan s -> fileType p = fileType s ->
  mediaSource p = mediaSource s -> mode p = mode s ->
  cameraStream p = cameraStream s ->
  autoScanDeps_same p s = true.
Proof.
  unfold autoScanDeps_same. intros -> -> -> -> ->.
  rewrite Bool.eqb_reflx, Mode_eqb_refl, !option_eqb_refl; auto using
    FileType_eqb_refl, String.eqb_refl, same_stream_refl.
Qed.

Lemma autoScanDeps_same_isAutoScan (p s : State) :
  autoScanDeps_same p s = true -> isAutoScan p = isAutoScan s.
Proof.
  unfold autoScanDeps_same. rewrite !andb_true_iff.
  intros [[[[H _] _] _] _]. now apply Bool.eqb_prop.
Qed.

Lemma attachDeps_same_fields (p s : State) :
  mode p = mode s -> cameraStream p = cameraStream s -> attachDeps_same p s = true.
Proof.
  unfold attachDeps_same. intros -> ->.
  rewrite Mode_eqb_refl, option_eqb_refl; auto using same_stream_refl.
Qed.

Lemma voiceDeps_same_fields (p w : World) :
  resultGen p = resultGen w -> result (st p) = result (st w) ->
  isVoiceEnabled (st p) = isVoiceEnabled (st w) ->
  isAutoScan (st p) = isAutoScan (st w) ->
  voiceDeps_same p w = true.
Proof.
  unfold voiceDeps_same. intros -> -> -> ->.
  now rewrite Nat.eqb_refl, !Bool.eqb_reflx.
Qed.

(** A commit in which no dependency changed runs no effect. *)
Lemma commit_quiet (p w : World) :
  resultGen p = resultGen w -> result (st p) = result (st w) ->
  isVoiceEnabled (st p) = isVoiceEnabled (st w) ->
  isAutoScan (st p) = isAutoScan (st w) -> fileType (st p) = fileType (st w) ->
  mediaSource (st p) = mediaSource (st w) -> mode (st p) = mode (st w) ->
  cameraStream (st p) = cameraStream (st w) ->
  commit p w = w.
Proof.
  intros Hg Hr Hv Ha Hf Hm Hmo Hc. unfold commit.
  rewrite (autoScanDeps_same_fields _ _ Ha Hf Hm Hmo Hc).
  rewrite (attachDeps_same_fields _ _ Hmo Hc).
  rewrite (voiceDeps_same_fields _ _ Hg Hr Hv Ha).
  unfold videoMounted. rewrite Hmo, Hf. now rewrite Bool.eqb_reflx.
Qed.

Lemma commit_refl (w : World) : commit w w = w.
Proof. now apply commit_quiet. Qed.

(** *** What the effects leave alone *)

Lemma outside_voiceEffect s w : outsideEffects (voiceEffect s w) = outsideEffects w.
Proof. unfold voiceEffect, speak. cases; reflexivity. Qed.

Lemma outside_attachEffect s w : outsideEffects (attachEffect s w) = outsideEffects w.
Proof. unfold attachEffect. cases; reflexivity. Qed.

Lemma outside_autoScanCleanup w : outsideEffects (autoScanCleanup w) = outsideEffects w.
Proof. unfold autoScanCleanup, clearInterval. cases; reflexivity. Qed.

Lemma outside_autoScanEffect s w : outsideEffects (autoScanEffect s w) = outsideEffects w.
Proof. unfold autoScanEffect, setInterval, clearInterval. cases; reflexivity. Qed.

Lemma outside_with_videoRef v w : outsideEffects (with_videoRef v w) = outsideEffects w.
Proof. reflexivity. Qed.

Lemma outside_commit p w : outsideEffects (commit p w) = outsideEffects w.
Proof.
  unfold commit.
  repeat match goal with
         | |- context [if ?b then _ else _] => destruct b
         end;
    rewrite ?outside_autoScanEffect, ?outside_attachEffect, ?outside_voiceEffect,
      ?outside_autoScanCleanup, ?outside_with_videoRef;
    reflexivity.
Qed.

Lemma st_commit p w : st (commit p w) = st w.
Proof. pose proof (outside_commit p w) as H. unfold outsideEffects in H. congruence. Qed.

Lemma stoppedTracks_commit p w : stoppedTracks (commit p w) = stoppedTracks w.
Proof. pose proof (outside_commit p w) as H. unfold outsideEffects in H. congruence. Qed.

Lemma pending_commit p w : pending (commit p w) = pending w.
Proof. pose proof (outside_commit p w) as H. unfold outsideEffects in H. congruence. Qed.

Lemma console_commit p w : console (commit p w) = console w.
Proof. pose proof (outside_commit p w) as H. unfold outsideEffects in H. congruence. Qed.

Lemma scheduledScans_commit p w : scheduledScans (commit p w) = scheduledScans w.
Proof. pose proof (outside_commit p w) as H. unfold outsideEffects in H. congruence. Qed.

(** *** reset *)

(** [stopCamera] clears the stream cell only when the render it closed over
    held a stream: the handler is run against the render of the current
    cells. *)
Lemma st_reset w :
  st (reset (st w) w)
  = {| mode := initial; fileType := None; mediaSource := None; cameraStream := None;
       result := None; analyzing := analyzing (st w); error := None;
       isVoiceEnabled := isVoiceEnabled (st w); isAutoScan := false |}.
Proof.
  unfold reset, stopCamera.
  destruct (cameraStream (st w)) eqn:E; simpl; destruct (videoRef w); simpl;
    rewrite ?E; reflexivity.
Qed.

Lemma stoppedTracks_reset c w m :
  cameraStream c = Some m -> stoppedTracks (reset c w) = (stoppedTracks w ++ tracks m)%list.
Proof.
  intros H. unfold reset, stopCamera. rewrite H. simpl.
  destruct (videoRef w); reflexivity.
Qed.

Lemma videoRef_reset c w v : videoRef (reset c w) = Some v -> srcObject v = None.
Proof.
  unfold reset, stopCamera.
  destruct (cameraStream c); simpl; destruct (videoRef w) eqn:E; simpl;
    rewrite ?E; intros H; inversion H; reflexivity.
Qed.

Lemma videoRef_commit_initial p w v :
  mode (st w) = initial ->
  videoRef (commit p w) = Some v -> videoRef w = Some v.
Proof.
  intros Hm. unfold commit, videoMounted. rewrite Hm. simpl.
  unfold autoScanEffect, autoScanCleanup, voiceEffect, attachEffect, speak,
    clearInterval, setInterval.
  rewrite Hm.
  repeat match goal with
         | |- context [if ?b then _ else _] => destruct b
         | |- context [match ?x with _ => _ end] => destruct x
         end; simpl; try rewrite Hm; simpl; try congruence.
Qed.

(** On a world that is already at the baseline the handler changes nothing. *)
Lemma reset_fixed (w : World) :
  mode (st w) = initial -> fileType (st w) = None -> mediaSource (st w) = None ->
  cameraStream (st w) = None -> result (st w) = None -> error (st w) = None ->
  isAutoScan (st w) = false ->
  (forall v, videoRef w = Some v -> srcObject v = None) ->
  reset (st w) w = w.
Proof.
  destruct w as [s g vr cr ai ts nt sp co stp pe ntk sc].
  destruct s as [m f ms cs r a e ve au]. simpl.
  intros -> -> -> -> -> -> -> Hv.
  unfold reset, stopCamera. simpl.
  destruct vr as [[vw vh so fr]|]; simpl.
  - specialize (Hv _ eq_refl). simpl in Hv. subst so. reflexivity.
  - reflexivity.
Qed.

(** C3: [reset] is idempotent, and from every state it leaves mode
    [initial], no file type, no media source, no camera stream (every track of
    the stream it held stopped, the video element detached from it), no
    result, no error, and auto-scan off. *)
Theorem reset_returns_to_baseline (w : World) :
  let w' := resetClicked w in
  mode (st w') = initial
  /\ fileType (st w') = None
  /\ mediaSource (st w') = None
  /\ cameraStream (st w') = None
  /\ result (st w') = None
  /\ error (st w') = None
  /\ isAutoScan (st w') = false
  /\ (forall m, cameraStream (st w) = Some m -> incl (tracks m) (stoppedTracks w'))
  /\ (forall v, videoRef w' = Some v -> srcObject v = None)
  /\ resetClicked w' = w'.
Proof.
  intros w'.
  assert (Hst : st w' = st (reset (st w) w)) by apply st_commit.
  assert (Hvid : forall v, videoRef w' = Some v -> srcObject v = None).
  { intros v Hv. apply (videoRef_reset (st w) w).
    apply (videoRef_commit_initial w); [now rewrite st_reset|exact Hv]. }
  rewrite st_reset in Hst.
  repeat split; try (rewrite Hst; reflexivity).
  - intros m Hm. unfold w', resetClicked.
    rewrite stoppedTracks_commit, (stoppedTracks_reset _ _ _ Hm).
    apply incl_appr, incl_refl.
  - exact Hvid.
  - unfold resetClicked at 1.
    rewrite reset_fixed; try (rewrite Hst; reflexivity); [apply commit_refl|exact Hvid].
Qed.

(** *** captureAndAnalyze *)

Lemma captureAndAnalyze_guard c w : analyzing c = true -> captureAndAnalyze c w = w.
Proof. unfold captureAndAnalyze. now intros ->. Qed.

(** C9: a call on a video source whose element reports a zero width or
    height returns at once and changes nothing (no error, no in-flight flag,
    the result kept), and the commit that follows runs no effect. *)
Theorem scan_skips_unloaded_video (c : State) (w : World) :
  fileType c = Some video ->
  (forall v, videoRef w = Some v -> videoWidth v = 0 \/ videoHeight v = 0) ->
  captureAndAnalyze c w = w /\ commit w (captureAndAnalyze c w) = w.
Proof.
  intros Hf Hv.
  assert (E : captureAndAnalyze c w = w).
  { unfold captureAndAnalyze. rewrite Hf.
    destruct (analyzing c); [reflexivity|].
    destruct (videoRef w) as [v|]; [|reflexivity].
    destruct (canvasRef w) as [cv|]; [|reflexivity].
    destruct (Hv v eq_refl) as [-> | ->]; simpl; [reflexivity|].
    now rewrite orb_true_r. }
  rewrite E. split; [reflexivity|apply commit_refl].
Qed.

(** A video has just been uploaded: its element is mounted and has no size
    yet. *)
Lemma scan_skips_unloaded_video_witness :
  captureAndAnalyze (st (run [Scenario.uploadVideo] (init true)))
    (run [Scenario.uploadVideo] (init true))
  = run [Scenario.uploadVideo] (init true)
  /\ commit (run [Scenario.uploadVideo] (init true))
       (captureAndAnalyze (st (run [Scenario.uploadVideo] (init true)))
          (run [Scenario.uploadVideo] (init true)))
     = run [Scenario.uploadVideo] (init true).
Proof.
  assert (Hf : fileType (st (run [Scenario.uploadVideo] (init true))) = Some video)
    by (vm_compute; reflexivity).
  assert (Hv : forall v, videoRef (run [Scenario.uploadVideo] (init true)) = Some v ->
                         videoWidth v = 0 \/ videoHeight v = 0).
  { intros v H. vm_compute in H. injection H as <-. left. reflexivity. }
  exact (scan_skips_unloaded_video _ _ Hf Hv).
Defined.

Lemma take_activeAnalyses (id : nat) (l rest : list (nat * Task)) (t : Task) :
  take id l = Some (t, rest) ->
  length (filter isAnalysis l)
  = (if isAnalysis (id, t) then 1 else 0) + length (filter isAnalysis rest).
Proof.
  revert rest. induction l as [|[i a] l IH]; intros rest; simpl; [discriminate|].
  destruct (Nat.eqb_spec i id) as [->|Hne].
  - intros [= -> ->]. unfold isAnalysis at 1 2. simpl.
    destruct t; reflexivity.
  - destruct (take id l) as [[b r]|]; [|discriminate].
    intros [= -> <-]. specialize (IH _ eq_refl). simpl.
    unfold isAnalysis at 1. simpl.
    destruct a; simpl; rewrite IH; destruct (isAnalysis (id, t)); lia.
Qed.

(** C10: when the fetch, the blob or the reader of a still image fails, the
    suspended call ends there: every state cell is as it was (no error shown,
    [analyzing] still unset), no analysis-client call is added, nothing is
    spoken and no timer changes; the console gets the diagnostic.  The call
    had suspended without touching the state either. *)
Theorem image_capture_failure_is_silent (c : State) (w : World) :
  analyzing c = false ->
  fileType c = Some image ->
  truthy_opt (mediaSource c) = true ->
  (st (captureAndAnalyze c w) = st w
   /\ pending (captureAndAnalyze c w) = (pending w ++ [(nextTask w, AwaitImage c)])%list)
  /\ forall w1 id rest,
       take id (pending w1) = Some (AwaitImage c, rest) ->
       st (step (ImageSettled id None) w1) = st w1
       /\ activeAnalyses (step (ImageSettled id None) w1) = activeAnalyses w1
       /\ pending (step (ImageSettled id None) w1) = rest
       /\ console (step (ImageSettled id None) w1)
          = (console w1 ++ ["Error converting image to base64:"])%list
       /\ speechSynthesis (step (ImageSettled id None) w1) = speechSynthesis w1
       /\ timers (step (ImageSettled id None) w1) = timers w1
       /\ resultGen (step (ImageSettled id None) w1) = resultGen w1.
Proof.
  intros Ha Hf Hm. split.
  - unfold captureAndAnalyze. rewrite Ha, Hf, Hm.
    destruct (videoRef w), (canvasRef w); split; reflexivity.
  - intros w1 id rest Ht.
    assert (E : step (ImageSettled id None) w1
                = console_error "Error converting image to base64:"
                    (with_pending rest (nextTask w1) w1)).
    { unfold step, handle. rewrite Ht. now apply commit_quiet. }
    rewrite E. repeat split.
    unfold activeAnalyses. simpl.
    now rewrite (take_activeAnalyses _ _ _ _ Ht).
Qed.

Lemma image_capture_failure_witness :
  st (step (ImageSettled 0 None) (run [Scenario.uploadImage; ClickScan] (init true)))
  = st (run [Scenario.uploadImage; ClickScan] (init true))
  /\ activeAnalyses
       (step (ImageSettled 0 None) (run [Scenario.uploadImage; ClickScan] (init true)))
     = activeAnalyses (run [Scenario.uploadImage; ClickScan] (init true)).
Proof.
  destruct (image_capture_failure_is_silent
              (st (run [Scenario.uploadImage] (init true)))
              (run [Scenario.uploadImage] (init true))
              eq_refl eq_refl eq_refl) as [_ H].
  destruct (H (run [Scenario.uploadImage; ClickScan] (init true)) 0 [] eq_refl)
    as (H1 & H2 & _).
  split; [exact H1|exact H2].
Defined.

(** What a settled analysis does to the page when it failed. *)
Lemma step_analysis_rejected w id c url rest err :
  take id (pending w) = Some (AwaitAnalysis c url, rest) ->
  step (AnalysisSettled id (inl err)) w
  = captureAndAnalyze_settled c (inl err)
      (analyzeRoadScene_settled (inl err) (with_pending rest (nextTask w) w)).
Proof.
  intros Ht. unfold step, handle. rewrite Ht.
  apply commit_quiet; unfold captureAndAnalyze_settled; destruct (isAutoScan c);
    reflexivity.
Qed.

(** Every failed analysis: [analyzing] is cleared and the failure is written
    to the console twice, by the client and by the page;
    "Analysis failed. Try again." is put in [error] exactly when auto-scan
    was off in the render whose captureAndAnalyze made the attempt, and
    [error] is left as it was when that render had auto-scan on; no other
    state cell, the speech queue or the timers change. *)
Lemma failed_analysis_clears_flag
    (w : World) (id : nat) (c : State) (url : string) (rest : list (nat * Task))
    (err : string) :
  take id (pending w) = Some (AwaitAnalysis c url, rest) ->
  analyzing (st (step (AnalysisSettled id (inl err)) w)) = false
  /\ error (st (step (AnalysisSettled id (inl err)) w))
     = (if isAutoScan c then error (st w) else Some "Analysis failed. Try again.")
  /\ console (step (AnalysisSettled id (inl err)) w)
     = (console w ++ [("Gemini Analysis Error: " ++ err)%string; err])%list
  /\ mode (st (step (AnalysisSettled id (inl err)) w)) = mode (st w)
  /\ fileType (st (step (AnalysisSettled id (inl err)) w)) = fileType (st w)
  /\ mediaSource (st (step (AnalysisSettled id (inl err)) w)) = mediaSource (st w)
  /\ cameraStream (st (step (AnalysisSettled id (inl err)) w)) = cameraStream (st w)
  /\ result (st (step (AnalysisSettled id (inl err)) w)) = result (st w)
  /\ isVoiceEnabled (st (step (AnalysisSettled id (inl err)) w)) = isVoiceEnabled (st w)
  /\ isAutoScan (st (step (AnalysisSettled id (inl err)) w)) = isAutoScan (st w)
  /\ speechSynthesis (step (AnalysisSettled id (inl err)) w) = speechSynthesis w
  /\ timers (step (AnalysisSettled id (inl err)) w) = timers w
  /\ pending (step (AnalysisSettled id (inl err)) w) = rest.
Proof.
  intros Ht. rewrite (step_analysis_rejected _ _ _ _ _ _ Ht).
  unfold captureAndAnalyze_settled, analyzeRoadScene_settled, console_error.
  destruct (isAutoScan c); cbn [console with_console with_st setError setAnalyzing st];
    rewrite <- ?app_assoc; repeat split.
Qed.

(** A scan made by hand, with auto-scan never switched on, shows its
    failure. *)
Lemma failed_analysis_witness :
  error (st (step (AnalysisSettled 1 (inl "503"))
               (run [Scenario.uploadImage; ClickScan; ImageSettled 0 (Some Scenario.pngUrl)]
                  (init true))))
  = Some "Analysis failed. Try again."
  /\ analyzing (st (step (AnalysisSettled 1 (inl "503"))
                      (run [Scenario.uploadImage; ClickScan;
                            ImageSettled 0 (Some Scenario.pngUrl)]
                         (init true))))
     = false.
Proof.
  destruct (failed_analysis_clears_flag
              (run [Scenario.uploadImage; ClickScan; ImageSettled 0 (Some Scenario.pngUrl)]
                 (init true))
              1 (st (run [Scenario.uploadImage] (init true))) Scenario.pngUrl [] "503"
              eq_refl) as (H1 & H2 & _).
  split; [exact H2|exact H1].
Defined.

(** C4: the page breaks the claim where auto-scan is switched while an
    analysis is in flight.  [if (!isAutoScan) setError(...)] reads the flag
    of the render that made the call, not the one at the time of the
    failure, against the comment above it (no error shown in auto-scan
    mode).  A video is scanned by hand and AUTO is clicked before the
    analysis fails: [analyzing] is cleared and the failure is logged by the
    client and by the page, but "Analysis failed. Try again." is shown while
    auto-scan is on.  The other way round, a scan started by the interval
    that fails after STOP was clicked shows no error while auto-scan is
    off. *)
Theorem failed_analysis_reads_stale_flag :
  (isAutoScan
     (st (run (Scenario.manualThenAuto ++ [AnalysisSettled 0 (inl "503")]) (init true)))
   = true
   /\ error
        (st (run (Scenario.manualThenAuto ++ [AnalysisSettled 0 (inl "503")]) (init true)))
      = Some "Analysis failed. Try again."
   /\ analyzing
        (st (run (Scenario.manualThenAuto ++ [AnalysisSettled 0 (inl "503")]) (init true)))
      = false
   /\ console (run (Scenario.manualThenAuto ++ [AnalysisSettled 0 (inl "503")]) (init true))
      = ["Gemini Analysis Error: 503"; "503"])
  /\ (isAutoScan
        (st (run (Scenario.autoThenStop ++ [AnalysisSettled 0 (inl "503")]) (init true)))
      = false
      /\ error
           (st (run (Scenario.autoThenStop ++ [AnalysisSettled 0 (inl "503")]) (init true)))
         = None
      /\ analyzing
           (st (run (Scenario.autoThenStop ++ [AnalysisSettled 0 (inl "503")]) (init true)))
         = false
      /\ console (run (Scenario.autoThenStop ++ [AnalysisSettled 0 (inl "503")]) (init true))
         = ["Gemini Analysis Error: 503"; "503"]).
Proof. vm_compute. repeat split. Qed.

(** Under auto-scan that stays on, a failure leaves [error] empty and is
    logged by the client and by the page. *)
Lemma failed_analysis_under_auto_scan :
  error (st (run (Scenario.slowAutoScan ++ [AnalysisSettled 0 (inl "503")]) (init true)))
  = None
  /\ console (run (Scenario.slowAutoScan ++ [AnalysisSettled 0 (inl "503")]) (init true))
     = ["Gemini Analysis Error: 503"; "503"].
Proof. vm_compute. split; reflexivity. Qed.

(** *** Voice *)

(** A settled analysis that succeeded stores a new result, so the commit
    runs the voice effect, and no other. *)
Lemma step_analysis_resolved w id c url rest r :
  take id (pending w) = Some (AwaitAnalysis c url, rest) ->
  step (AnalysisSettled id (inr r)) w
  = voiceEffect
      (st (captureAndAnalyze_settled c (inr r) (with_pending rest (nextTask w) w)))
      (captureAndAnalyze_settled c (inr r) (with_pending rest (nextTask w) w)).
Proof.
  intros Ht. unfold step, handle. rewrite Ht. cbn [analyzeRoadScene_settled]. unfold commit.
  set (w1 := captureAndAnalyze_settled c (inr r) (with_pending rest (nextTask w) w)).
  assert (A : autoScanDeps_same (st w) (st w1) = true)
    by (apply autoScanDeps_same_fields; reflexivity).
  assert (B : attachDeps_same (st w) (st w1) = true)
    by (apply attachDeps_same_fields; reflexivity).
  assert (V : voiceDeps_same w w1 = false).
  { unfold voiceDeps_same. replace (resultGen w1) with (S (resultGen w)) by reflexivity.
    destruct (Nat.eqb_spec (resultGen w) (S (resultGen w))); [lia|reflexivity]. }
  assert (M : videoMounted (st w) = videoMounted (st w1)) by reflexivity.
  rewrite A, B, V, M, Bool.eqb_reflx. reflexivity.
Qed.

Lemma voiceEffect_danger s r q w :
  result s = Some r -> isVoiceEnabled s = true -> speechSynthesis w = Some q ->
  safetyLevel r = "DANGER" ->
  voiceEffect s w = with_speech (Some ["Warning. " ++ recommendation r]) w.
Proof.
  intros Hr Hv Hq Hl. unfold voiceEffect, speak. now rewrite Hr, Hv, Hl, Hq.
Qed.

Lemma voiceEffect_caution s r q w :
  result s = Some r -> isVoiceEnabled s = true -> speechSynthesis w = Some q ->
  safetyLevel r = "CAUTION" ->
  voiceEffect s w = with_speech (Some (q ++ [("Caution. " ++ recommendation r)%string])%list) w.
Proof.
  intros Hr Hv Hq Hl. unfold voiceEffect, speak. now rewrite Hr, Hv, Hl, Hq.
Qed.

Lemma voiceEffect_safe s r q w :
  result s = Some r -> isVoiceEnabled s = true -> speechSynthesis w = Some q ->
  safetyLevel r = "SAFE" ->
  voiceEffect s w
  = if isAutoScan s then w else with_speech (Some (q ++ [recommendation r])%list) w.
Proof.
  intros Hr Hv Hq Hl. unfold voiceEffect, speak. rewrite Hr, Hv, Hl, Hq. simpl.
  now destruct (isAutoScan s).
Qed.

Lemma voiceEffect_no_speech s w : speechSynthesis w = None -> voiceEffect s w = w.
Proof.
  intros Hq. unfold voiceEffect, speak. rewrite Hq.
  repeat match goal with
         | |- context [if ?b then _ else _] => destruct b
         | |- context [match ?x with _ => _ end] => destruct x
         end; reflexivity.
Qed.

(** C5, as amended: in a browser that has speech synthesis, with voice
    enabled, a new DANGER result empties the speech queue (whatever was being
    spoken or waiting) and then queues "Warning. " and the recommendation; a
    new CAUTION result queues "Caution. " and the recommendation behind what
    the queue holds, which it leaves in place. *)
Theorem danger_interrupts_caution_queues
    (w : World) (id : nat) (c : State) (url : string) (rest : list (nat * Task))
    (r : AnalysisResult) (q : list string) :
  take id (pending w) = Some (AwaitAnalysis c url, rest) ->
  isVoiceEnabled (st w) = true ->
  speechSynthesis w = Some q ->
  (safetyLevel r = "DANGER" ->
   speechSynthesis (step (AnalysisSettled id (inr r)) w)
   = Some ["Warning. " ++ recommendation r])
  /\ (safetyLevel r = "CAUTION" ->
      speechSynthesis (step (AnalysisSettled id (inr r)) w)
      = Some (q ++ [("Caution. " ++ recommendation r)%string])%list).
Proof.
  intros Ht Hv Hq. rewrite (step_analysis_resolved _ _ _ _ _ _ Ht).
  split; intros Hl.
  - now rewrite (voiceEffect_danger _ r q).
  - now rewrite (voiceEffect_caution _ r q).
Qed.

Lemma danger_interrupts_witness :
  speechSynthesis (run Scenario.scanWhileSpeaking (init true)) = Some ["Slow down"]
  /\ speechSynthesis
       (step (AnalysisSettled 3 (inr (Scenario.slowDown "DANGER")))
          (run Scenario.scanWhileSpeaking (init true)))
     = Some ["Warning. Slow down"]
  /\ speechSynthesis
       (step (AnalysisSettled 3 (inr (Scenario.slowDown "CAUTION")))
          (run Scenario.scanWhileSpeaking (init true)))
     = Some ["Slow down"; "Caution. Slow down"].
Proof.
  split; [reflexivity|]. split.
  - apply (danger_interrupts_caution_queues
             (run Scenario.scanWhileSpeaking (init true)) 3
             (st (run (Scenario.voicedScan "SAFE") (init true)))
             Scenario.pngUrl [] (Scenario.slowDown "DANGER") ["Slow down"]
             eq_refl eq_refl eq_refl).
    reflexivity.
  - apply (danger_interrupts_caution_queues
             (run Scenario.scanWhileSpeaking (init true)) 3
             (st (run (Scenario.voicedScan "SAFE") (init true)))
             Scenario.pngUrl [] (Scenario.slowDown "CAUTION") ["Slow down"]
             eq_refl eq_refl eq_refl).
    reflexivity.
Defined.

(** Voice is enabled and a DANGER result is shown, in a browser without
    [window.speechSynthesis]: [speak] returns before it speaks. *)
Lemma danger_unspoken_without_speech_synthesis :
  isVoiceEnabled (st (run (Scenario.voicedScan "DANGER") (init false))) = true
  /\ result (st (run (Scenario.voicedScan "DANGER") (init false)))
     = Some (Scenario.slowDown "DANGER")
  /\ spoken "Warning. Slow down" (run (Scenario.voicedScan "DANGER") (init false)) = false
  /\ speechSynthesis (run (Scenario.voicedScan "DANGER") (init false)) = None.
Proof. vm_compute. repeat split. Qed.

(** C6, as amended: in a browser that has speech synthesis, with voice
    enabled, a new SAFE result is queued for speaking exactly when auto-scan
    is off in the render that shows it; under auto-scan the queue is left as
    it is. *)
Theorem safe_spoken_iff_not_auto_scan
    (w : World) (id : nat) (c : State) (url : string) (rest : list (nat * Task))
    (r : AnalysisResult) (q : list string) :
  take id (pending w) = Some (AwaitAnalysis c url, rest) ->
  isVoiceEnabled (st w) = true ->
  speechSynthesis w = Some q ->
  safetyLevel r = "SAFE" ->
  speechSynthesis (step (AnalysisSettled id (inr r)) w)
  = Some (if isAutoScan (st w) then q else (q ++ [recommendation r])%list).
Proof.
  intros Ht Hv Hq Hl. rewrite (step_analysis_resolved _ _ _ _ _ _ Ht).
  rewrite (voiceEffect_safe _ r q); try assumption; try reflexivity.
  change (isAutoScan (st (captureAndAnalyze_settled c (inr r)
                            (with_pending rest (nextTask w) w))))
    with (isAutoScan (st w)).
  destruct (isAutoScan (st w)); [exact Hq|reflexivity].
Qed.

Lemma safe_spoken_witness :
  speechSynthesis
    (step (AnalysisSettled 3 (inr (Scenario.slowDown "SAFE")))
       (run Scenario.scanWhileSpeaking (init true)))
  = Some ["Slow down"; "Slow down"]
  /\ speechSynthesis
       (step (AnalysisSettled 0 (inr (Scenario.slowDown "SAFE")))
          (run Scenario.voicedAutoScan (init true)))
     = Some [].
Proof.
  split.
  - apply (safe_spoken_iff_not_auto_scan
             (run Scenario.scanWhileSpeaking (init true)) 3
             (st (run (Scenario.voicedScan "SAFE") (init true)))
             Scenario.pngUrl [] (Scenario.slowDown "SAFE") ["Slow down"]
             eq_refl eq_refl eq_refl eq_refl).
  - apply (safe_spoken_iff_not_auto_scan
             (run Scenario.voicedAutoScan (init true)) 0
             (st (run [ClickVoice; Scenario.uploadVideo;
                       VideoFrame 640 480 "/9j/4AAQSkZJRg=="; ClickAuto] (init true)))
             "data:image/jpeg;base64,/9j/4AAQSkZJRg==" []
             (Scenario.slowDown "SAFE") []
             eq_refl eq_refl eq_refl eq_refl).
Defined.

(** Voice is enabled, auto-scan is off and a SAFE result is shown, in a
    browser without [window.speechSynthesis]: nothing is spoken.  And in a
    browser with it, the SAFE result of a scan started by hand is not spoken
    when AUTO was clicked while the analysis was in flight. *)
Lemma safe_unspoken_counterexamples :
  (isVoiceEnabled (st (run (Scenario.voicedScan "SAFE") (init false))) = true
   /\ isAutoScan (st (run (Scenario.voicedScan "SAFE") (init false))) = false
   /\ result (st (run (Scenario.voicedScan "SAFE") (init false)))
      = Some (Scenario.slowDown "SAFE")
   /\ spoken "Slow down" (run (Scenario.voicedScan "SAFE") (init false)) = false)
  /\ (scheduledScans
        (run (ClickVoice :: Scenario.manualThenAuto
                ++ [AnalysisSettled 0 (inr (Scenario.slowDown "SAFE"))])%list (init true))
      = 0
      /\ result
           (st (run (ClickVoice :: Scenario.manualThenAuto
                       ++ [AnalysisSettled 0 (inr (Scenario.slowDown "SAFE"))])%list
                  (init true)))
         = Some (Scenario.slowDown "SAFE")
      /\ speechSynthesis
           (run (ClickVoice :: Scenario.manualThenAuto
                   ++ [AnalysisSettled 0 (inr (Scenario.slowDown "SAFE"))])%list
              (init true))
         = Some []).
Proof. vm_compute. repeat split. Qed.

(** *** Overlapping requests *)

(** C1, at the failing input: a still image is uploaded and SCAN is clicked
    twice before the image has been read.  Both calls pass the guard (no
    render has [analyzing] set yet), both reach [analyzeRoadScene], and two
    analysis-client calls are in flight at once, the second one started
    while [analyzing] already was [true]. *)
Theorem double_click_overlaps_analyses :
  activeAnalyses (run Scenario.doubleClick (init true)) = 2
  /\ analyzing
       (st (run [Scenario.uploadImage; ClickScan; ClickScan;
                 ImageSettled 0 (Some Scenario.pngUrl)] (init true))) = true
  /\ activeAnalyses
       (run [Scenario.uploadImage; ClickScan; ClickScan;
             ImageSettled 0 (Some Scenario.pngUrl)] (init true)) = 1.
Proof. vm_compute. repeat split. Qed.

(** The interval calls the [captureAndAnalyze] of the render that created
    it, where [analyzing] was [false]: a tick that comes while the analysis
    of the previous one is in flight starts another. *)
Lemma slow_auto_scan_overlaps_analyses :
  activeAnalyses (run Scenario.slowAutoScan (init true)) = 2
  /\ analyzing (st (run Scenario.slowAutoScan (init true))) = true.
Proof. vm_compute. split; reflexivity. Qed.

(** *** The auto-scan timer *)

Ltac unfold_handlers :=
  unfold handle, startCamera, startCamera_settled, handleFileUpload, captureAndAnalyze,
    captureAndAnalyze_image, captureAndAnalyze_settled, analyzeRoadScene_settled, submit,
    toggleVoice,
    speech_cancel, reset, stopCamera, find_timer in *.

(** No handler touches the timers or the ref: only the effect does. *)
Lemma handle_timers e w : timerPart (handle e w) = timerPart w.
Proof. destruct e; unfold_handlers; cases; reflexivity. Qed.

Lemma timerPart_voiceEffect s w : timerPart (voiceEffect s w) = timerPart w.
Proof. unfold voiceEffect, speak. cases; reflexivity. Qed.

Lemma timerPart_attachEffect s w : timerPart (attachEffect s w) = timerPart w.
Proof. unfold attachEffect. cases; reflexivity. Qed.

Lemma timerPart_with_videoRef v w : timerPart (with_videoRef v w) = timerPart w.
Proof. reflexivity. Qed.

(** The clean-up and the effect read and write the timers and the ref only. *)
Lemma timerPart_autoScanCleanup w w' :
  timerPart w = timerPart w' ->
  timerPart (autoScanCleanup w) = timerPart (autoScanCleanup w').
Proof.
  unfold timerPart, autoScanCleanup, clearInterval. intros [= H1 H2 H3].
  rewrite H3. destruct (ref_truthy (autoScanInterval w')); simpl; congruence.
Qed.

Lemma timerPart_autoScanEffect s w w' :
  timerPart w = timerPart w' ->
  timerPart (autoScanEffect s w) = timerPart (autoScanEffect s w').
Proof.
  unfold timerPart, autoScanEffect, setInterval, clearInterval. intros [= H1 H2 H3].
  rewrite H3.
  destruct (isAutoScan s); simpl; [congruence|].
  destruct (ref_truthy (autoScanInterval w')); simpl; congruence.
Qed.

Lemma timerPart_fields w ts n r :
  timerPart w = (ts, n, r) -> timers w = ts /\ nextTimer w = n /\ autoScanInterval w = r.
Proof. unfold timerPart. intros [= H1 H2 H3]. now repeat split. Qed.

Lemma commit_timers_same p w :
  autoScanDeps_same (st p) (st w) = true -> timerPart (commit p w) = timerPart w.
Proof.
  intros H. unfold commit. rewrite H.
  repeat match goal with
         | |- context [if ?b then _ else _] => destruct b
         end;
    rewrite ?timerPart_attachEffect, ?timerPart_voiceEffect, ?timerPart_with_videoRef;
    reflexivity.
Qed.

Lemma commit_timers_changed p w :
  autoScanDeps_same (st p) (st w) = false ->
  timerPart (commit p w) = timerPart (autoScanEffect (st w) (autoScanCleanup w)).
Proof.
  intros H. unfold commit. rewrite H.
  repeat match goal with
         | |- context [if ?b then _ else _] => destruct b
         end;
    apply timerPart_autoScanEffect;
    rewrite ?timerPart_attachEffect, ?timerPart_voiceEffect;
    apply timerPart_autoScanCleanup;
    rewrite ?timerPart_with_videoRef;
    reflexivity.
Qed.

(** Clean-up, then effect, on tidy timers: one fresh timer when auto-scan is
    on in the new render, none otherwise. *)
Lemma rerun_from_one s w id c :
  timers w = [(id, c)] -> autoScanInterval w = Some id -> id <> 0 ->
  timerPart (autoScanEffect s (autoScanCleanup w))
  = if isAutoScan s then ([(nextTimer w, s)], S (nextTimer w), Some (nextTimer w))
    else ([], nextTimer w, None).
Proof.
  intros Ht Hr Hid.
  assert (R : ref_truthy (Some id) = Some id).
  { unfold ref_truthy. destruct (Nat.eqb_spec id 0); [contradiction|reflexivity]. }
  unfold timerPart, autoScanEffect, autoScanCleanup, setInterval, clearInterval.
  rewrite Hr, R. simpl. rewrite ?Ht, ?Hr, ?R. simpl. rewrite ?Nat.eqb_refl. simpl.
  destruct (isAutoScan s); simpl; rewrite ?Ht, ?Hr, ?R; simpl; rewrite ?Nat.eqb_refl;
    reflexivity.
Qed.

Lemma rerun_from_none s w :
  timers w = [] -> autoScanInterval w = None ->
  timerPart (autoScanEffect s (autoScanCleanup w))
  = if isAutoScan s then ([(nextTimer w, s)], S (nextTimer w), Some (nextTimer w))
    else ([], nextTimer w, None).
Proof.
  intros Ht Hr.
  unfold timerPart, autoScanEffect, autoScanCleanup, setInterval, clearInterval.
  rewrite Hr. simpl. rewrite ?Ht, ?Hr. simpl.
  destruct (isAutoScan s); simpl; rewrite ?Ht, ?Hr; reflexivity.
Qed.

(** A handler switches auto-scan off, or leaves the initial mode, or keeps
    both the mode and auto-scan; the AUTO button is shown outside the initial
    mode only. *)
Lemma handle_mode_auto e w :
  isAutoScan (st (handle e w)) = false
  \/ mode (st (handle e w)) <> initial
  \/ (mode (st (handle e w)) = mode (st w)
      /\ isAutoScan (st (handle e w)) = isAutoScan (st w)).
Proof.
  destruct e;
    try (unfold_handlers; cases;
         first [ left; reflexivity
               | right; left; simpl; discriminate
               | right; right; split; reflexivity ]).
  unfold handle. destruct (autoButton (st w)) eqn:B.
  - right. left. simpl. unfold autoButton in B.
    apply andb_true_iff in B. destruct B as [B _].
    intros E. rewrite E in B. discriminate B.
  - right. right. split; reflexivity.
Qed.

(** Auto-scan can only be on outside the initial mode. *)
Lemma handle_auto_mode e w :
  (isAutoScan (st w) = true -> mode (st w) <> initial) ->
  isAutoScan (st (handle e w)) = true -> mode (st (handle e w)) <> initial.
Proof.
  intros Hw Ha.
  destruct (handle_mode_auto e w) as [H|[H|[H1 H2]]].
  - congruence.
  - exact H.
  - rewrite H1. apply Hw. congruence.
Qed.

Lemma timersTidy_init speech : timersTidy (init speech).
Proof. unfold timersTidy. simpl. repeat split; [lia|discriminate]. Qed.

Lemma timersTidy_step e w : timersTidy w -> timersTidy (step e w).
Proof.
  intros (Hn & Hm & Ht). unfold step.
  pose proof (handle_timers e w) as T.
  pose proof (handle_auto_mode e w Hm) as Hm'.
  set (h := handle e w) in *.
  unfold timersTidy. rewrite st_commit.
  destruct (autoScanDeps_same (st w) (st h)) eqn:D.
  - pose proof (commit_timers_same w h D) as C. rewrite T in C.
    destruct (timerPart_fields _ _ _ _ C) as (C1 & C2 & C3).
    rewrite C1, C2, C3.
    split; [exact Hn|]. split; [exact Hm'|].
    rewrite <- (autoScanDeps_same_isAutoScan _ _ D). exact Ht.
  - pose proof (commit_timers_changed w h D) as C.
    rewrite (timerPart_autoScanEffect _ _ (autoScanCleanup w)) in C
      by (apply timerPart_autoScanCleanup; exact T).
    assert (F : timerPart (commit w h)
                = if isAutoScan (st h)
                  then ([(nextTimer w, st h)], S (nextTimer w), Some (nextTimer w))
                  else ([], nextTimer w, None)).
    { rewrite C. destruct (isAutoScan (st w)).
      - destruct Ht as (id & c & E1 & E2 & E3 & E4).
        apply (rerun_from_one _ _ id c); [exact E1|exact E2|lia].
      - destruct Ht as (E1 & E2). now apply rerun_from_none. }
    clear C. destruct (isAutoScan (st h)) eqn:A.
    + destruct (timerPart_fields _ _ _ _ F) as (C1 & C2 & C3).
      rewrite C1, C2, C3.
      split; [lia|]. split; [exact Hm'|].
      exists (nextTimer w), (st h). repeat split; try lia. exact A.
    + destruct (timerPart_fields _ _ _ _ F) as (C1 & C2 & C3).
      rewrite C1, C2, C3.
      split; [exact Hn|]. split; [discriminate|]. split; reflexivity.
Qed.

Lemma timersTidy_run es w : timersTidy w -> timersTidy (run es w).
Proof.
  revert w. induction es as [|e es IH]; intros w H; simpl; [exact H|].
  apply IH, timersTidy_step, H.
Qed.

Lemma timersTidy_off w :
  timersTidy w -> isAutoScan (st w) = false ->
  timers w = [] /\ autoScanInterval w = None.
Proof. intros (_ & _ & H) E. now rewrite E in H. Qed.

(** With no timer registered, no event is a call from the scheduler. *)
Lemma step_no_timer e w :
  timers w = [] -> scheduledScans (step e w) = scheduledScans w.
Proof.
  intros Ht. unfold step. rewrite scheduledScans_commit.
  destruct e; try (unfold_handlers; cases; reflexivity).
  unfold handle, find_timer. now rewrite Ht.
Qed.

(** Only the AUTO button switches auto-scan on. *)
Lemma step_stays_off e w :
  isAutoScan (st w) = false -> e <> ClickAuto -> isAutoScan (st (step e w)) = false.
Proof.
  intros Ha He. unfold step. rewrite st_commit.
  destruct e; try congruence;
    unfold_handlers; cases; simpl; try exact Ha; try reflexivity.
Qed.

Lemma noClickAuto_cons e es :
  noClickAuto (e :: es) = true -> e <> ClickAuto /\ noClickAuto es = true.
Proof. destruct e; simpl; intros H; split; try discriminate; exact H. Qed.

Lemma run_stays_off es w :
  timersTidy w -> isAutoScan (st w) = false -> noClickAuto es = true ->
  isAutoScan (st (run es w)) = false
  /\ timers (run es w) = []
  /\ scheduledScans (run es w) = scheduledScans w.
Proof.
  revert w. induction es as [|e es IH]; intros w Hi Ha Hn; simpl.
  - destruct (timersTidy_off w Hi Ha) as [Ht _]. now repeat split.
  - destruct (noClickAuto_cons _ _ Hn) as [He Hn'].
    destruct (timersTidy_off w Hi Ha) as [Ht _].
    destruct (IH (step e w) (timersTidy_step e w Hi) (step_stays_off e w Ha He) Hn')
      as (I1 & I2 & I3).
    repeat split; [exact I1|exact I2|].
    rewrite I3. now apply step_no_timer.
Qed.

Lemma disabling_click e w :
  timersTidy w -> isAutoScan (st w) = true ->
  e = ClickReset \/ (e = ClickAuto /\ autoButton (st w) = true) ->
  isAutoScan (st (step e w)) = false.
Proof.
  intros (_ & Hm & _) Ha He. unfold step. rewrite st_commit.
  destruct He as [->|[-> Hb]]; unfold handle.
  - unfold resetButton. destruct (Mode_eqb (mode (st w)) initial) eqn:M.
    + apply Mode_eqb_eq in M. now destruct (Hm Ha).
    + cbn [negb]. now rewrite st_reset.
  - rewrite Hb, Ha. reflexivity.
Qed.

Lemma unmount_clears w : timersTidy w -> timers (unmount w) = [].
Proof.
  intros (_ & _ & Ht). unfold unmount, autoScanCleanup, clearInterval, ref_truthy. simpl.
  destruct (isAutoScan (st w)).
  - destruct Ht as (id & c & E1 & E2 & E3 & _). rewrite E2.
    destruct (Nat.eqb_spec id 0); [lia|]. simpl. rewrite E1. simpl.
    rewrite Nat.eqb_refl. simpl. rewrite E2.
    destruct (Nat.eqb_spec id 0); [lia|]. reflexivity.
  - destruct Ht as (E1 & E2). rewrite E2. simpl. now rewrite E2.
Qed.

(** C2: at every moment of the component's life the only interval timer
    is the one the ref names, and there is none while auto-scan is off, so a
    change of mode or source leaves no orphan.  Clicking STOP (or RESET) while
    auto-scan is on clears the timer in that same task: afterwards no timer is
    registered, and however the page goes on, until AUTO is clicked again the
    scheduler makes no call of captureAndAnalyze.  Unmounting clears the
    timer as well. *)
Theorem disabling_auto_scan_cancels_timer (speech : bool) (es : list Event) :
  let w := run es (init speech) in
  timersTidy w
  /\ (isAutoScan (st w) = true ->
      forall e, e = ClickReset \/ (e = ClickAuto /\ autoButton (st w) = true) ->
        isAutoScan (st (step e w)) = false
        /\ timers (step e w) = []
        /\ autoScanInterval (step e w) = None
        /\ forall es', noClickAuto es' = true ->
             timers (run es' (step e w)) = []
             /\ scheduledScans (run es' (step e w)) = scheduledScans w)
  /\ timers (unmount w) = [].
Proof.
  intros w.
  assert (Hi : timersTidy w) by (apply timersTidy_run, timersTidy_init).
  split; [exact Hi|]. split; [|now apply unmount_clears].
  intros Ha e He.
  pose proof (disabling_click e w Hi Ha He) as Hoff.
  pose proof (timersTidy_step e w Hi) as Hi'.
  destruct (timersTidy_off _ Hi' Hoff) as [Ht Hr].
  repeat split; try assumption.
  - apply (run_stays_off es' (step e w) Hi' Hoff H).
  - destruct (run_stays_off es' (step e w) Hi' Hoff H) as (_ & _ & ->).
    unfold step. rewrite scheduledScans_commit.
    destruct He as [->|[-> Hb]]; unfold handle.
    + unfold reset, stopCamera. cases; reflexivity.
    + rewrite Hb. reflexivity.
Qed.

(** The auto-scan of the scenario is stopped; two more ticks, of the old
    timer and of a later id, are no calls of the scheduler. *)
Lemma disabling_auto_scan_witness :
  timers (run [Tick 1; Tick 2] (step ClickAuto (run Scenario.slowAutoScan (init true))))
  = []
  /\ scheduledScans
       (run [Tick 1; Tick 2] (step ClickAuto (run Scenario.slowAutoScan (init true))))
     = scheduledScans (run Scenario.slowAutoScan (init true)).
Proof.
  assert (Ha : isAutoScan (st (run Scenario.slowAutoScan (init true))) = true)
    by (vm_compute; reflexivity).
  assert (Hb : autoButton (st (run Scenario.slowAutoScan (init true))) = true)
    by (vm_compute; reflexivity).
  destruct (disabling_auto_scan_cancels_timer true Scenario.slowAutoScan)
    as (_ & H & _).
  destruct (H Ha ClickAuto (or_intror (conj eq_refl Hb))) as (_ & _ & _ & H').
  exact (H' [Tick 1; Tick 2] eq_refl).
Defined.

(** *** The scenarios of the design document *)

(** A still image is uploaded and scanned once; the analysis returns a
    DANGER verdict.  [analyzing] goes from false to true and back, the result
    is the returned object, and the recommendation is spoken with priority. *)
Example single_scan_of_an_image :
  map (fun es => analyzing (st (run es (init true))))
    [[ClickVoice; Scenario.uploadImage];
     [ClickVoice; Scenario.uploadImage; ClickScan];
     [ClickVoice; Scenario.uploadImage; ClickScan; ImageSettled 0 (Some Scenario.pngUrl)];
     Scenario.voicedScan "DANGER"]
  = [false; false; true; false]
  /\ result (st (run (Scenario.voicedScan "DANGER") (init true)))
     = Some (Scenario.slowDown "DANGER")
  /\ speechSynthesis (run (Scenario.voicedScan "DANGER") (init true))
     = Some ["Warning. Slow down"]
  /\ activeAnalyses (run (Scenario.voicedScan "DANGER") (init true)) = 0.
Proof. vm_compute. repeat split. Qed.

(** The camera is refused: the mode stays [initial], an error is shown and
    no stream is held. *)
Example camera_denied :
  mode (st (run [ClickLiveCamera; CameraSettled 0 None] (init true))) = initial
  /\ error (st (run [ClickLiveCamera; CameraSettled 0 None] (init true)))
     = Some "Could not access camera. Check permissions or try a different browser."
  /\ cameraStream (st (run [ClickLiveCamera; CameraSettled 0 None] (init true))) = None
  /\ fileType (st (run [ClickLiveCamera; CameraSettled 0 None] (init true))) = None.
Proof. vm_compute. repeat split. Qed.

(** Under auto-scan on a video the analysis fails twice in a row: no error
    is shown, [analyzing] is false after each failure and the interval is
    still registered. *)
Example auto_scan_fails_twice :
  map (fun es => (error (st (run es (init true))), analyzing (st (run es (init true)))))
    [[Scenario.uploadVideo; VideoFrame 640 480 "/9j/4AAQSkZJRg=="; ClickAuto; Tick 1;
      AnalysisSettled 0 (inl "503")];
     [Scenario.uploadVideo; VideoFrame 640 480 "/9j/4AAQSkZJRg=="; ClickAuto; Tick 1;
      AnalysisSettled 0 (inl "503"); Tick 1; AnalysisSettled 1 (inl "503")]]
  = [(None, false); (None, false)]
  /\ map fst
       (timers
          (run [Scenario.uploadVideo; VideoFrame 640 480 "/9j/4AAQSkZJRg=="; ClickAuto;
                Tick 1; AnalysisSettled 0 (inl "503"); Tick 1;
                AnalysisSettled 1 (inl "503")] (init true)))
     = [1].
Proof. vm_compute. repeat split. Qed.

(** * Further properties *)

(** ** The payload sent to the model *)

Lemma match_data_url_some (formats : list string) (s rest : string) :
  GeminiService.match_data_url formats s = Some rest ->
  exists f, In f formats /\ s = GeminiService.data_url_prefix f ++ rest.
Proof.
  induction formats as [|f fs IH]; cbn [GeminiService.match_data_url]; [discriminate|].
  destruct (strip_prefix (GeminiService.data_url_prefix f) s) as [r|] eqn:E.
  - intros H. injection H as <-. exists f. split; [now left|]. now apply strip_prefix_sound.
  - intros H. destruct (IH H) as (g & Hg & Hs). exists g. split; [now right|exact Hs].
Qed.

Lemma match_data_url_none (formats : list string) (s : string) :
  GeminiService.match_data_url formats s = None ->
  forall f, In f formats -> starts_with (GeminiService.data_url_prefix f) s = false.
Proof.
  induction formats as [|g fs IH]; cbn [GeminiService.match_data_url]; [intros _ f []|].
  destruct (strip_prefix (GeminiService.data_url_prefix g) s) as [r|] eqn:E;
    [discriminate|].
  intros H f [<-|Hf].
  - unfold starts_with. now rewrite E.
  - now apply IH.
Qed.

(** X1: [cleanBase64] removes at most one prefix and only a listed one:
    either the payload begins with none of the four prefixes
    [data:image/png|jpeg|jpg|webp;base64,] and is returned as it is, or it is
    one of them followed by exactly what is returned. *)
Theorem cleanBase64_removes_one_listed_prefix (s : string) :
  (GeminiService.cleanBase64 s = s
   /\ forall f, In f GeminiService.image_formats ->
                starts_with (GeminiService.data_url_prefix f) s = false)
  \/ (exists f, In f GeminiService.image_formats
                /\ s = GeminiService.data_url_prefix f ++ GeminiService.cleanBase64 s).
Proof.
  unfold GeminiService.cleanBase64.
  destruct (GeminiService.match_data_url GeminiService.image_formats s) as [rest|] eqn:E.
  - right. now apply match_data_url_some.
  - left. split; [reflexivity|]. now apply match_data_url_none.
Qed.

(** X2: for a data URL of one of the four listed formats the request
    carries exactly the base64 text after the prefix, and it is labelled
    [image/jpeg] whatever the format was. *)
Theorem listed_data_url_is_sent_raw (format rest : string) :
  In format GeminiService.image_formats ->
  GeminiService.data
    (GeminiService.inlineData
       (GeminiService.request (GeminiService.data_url_prefix format ++ rest))) = rest
  /\ GeminiService.mimeType
       (GeminiService.inlineData
          (GeminiService.request (GeminiService.data_url_prefix format ++ rest)))
     = "image/jpeg".
Proof.
  intros H. split; [|reflexivity].
  rewrite request_data. now apply cleanBase64_listed.
Qed.

Lemma listed_data_url_witness :
  GeminiService.data
    (GeminiService.inlineData
       (GeminiService.request (GeminiService.data_url_prefix "webp" ++ "UklGRg==")))
  = "UklGRg=="
  /\ GeminiService.mimeType
       (GeminiService.inlineData
          (GeminiService.request (GeminiService.data_url_prefix "webp" ++ "UklGRg==")))
     = "image/jpeg".
Proof.
  apply (listed_data_url_is_sent_raw "webp" "UklGRg==").
  right. right. right. left. reflexivity.
Defined.

(** ** The panel *)

Lemma eqb_cases (a b : string) : String.eqb a b = true /\ a = b \/ String.eqb a b = false /\ a <> b.
Proof. destruct (String.eqb_spec a b); [left|right]; now split. Qed.

(** X3: the panel can draw the three levels and nothing else.  A result is
    rendered as a report, and its colour is not the grey fallback, exactly
    when [safetyLevel] is [SAFE], [CAUTION] or [DANGER].  For every other
    string the colour is the fallback and the lookup of the icon gives no
    icon component: it gives [undefined], on which rendering throws, unless
    the string names a member that the table inherits from
    [Object.prototype], which is then handed to React in place of an icon. *)
Theorem panel_knows_three_levels (r : AnalysisResult) :
  (In (safetyLevel r) ["SAFE"; "CAUTION"; "DANGER"]
   <-> exists icon, AnalysisPanel.render (Some r) false = AnalysisPanel.Report r icon)
  /\ (In (safetyLevel r) ["SAFE"; "CAUTION"; "DANGER"]
      <-> AnalysisPanel.getSafetyColor (safetyLevel r) <> AnalysisPanel.fallbackColor)
  /\ (In (safetyLevel r) AnalysisPanel.inherited
      <-> AnalysisPanel.render (Some r) false = AnalysisPanel.Stray r (safetyLevel r))
  /\ (~ In (safetyLevel r) ["SAFE"; "CAUTION"; "DANGER"]
      /\ ~ In (safetyLevel r) AnalysisPanel.inherited
      <-> AnalysisPanel.render (Some r) false = AnalysisPanel.Throws r).
Proof.
  unfold AnalysisPanel.render, AnalysisPanel.SafetyIcon, AnalysisPanel.getSafetyColor.
  generalize (safetyLevel r) as level. intros level.
  destruct (eqb_cases level "SAFE") as [[-> ->]|[-> H1]].
  { repeat split; simpl; intros; try discriminate; try congruence; eauto;
      intuition discriminate. }
  destruct (eqb_cases level "CAUTION") as [[-> ->]|[-> H2]].
  { repeat split; simpl; intros; try discriminate; try congruence; eauto;
      intuition discriminate. }
  destruct (eqb_cases level "DANGER") as [[-> ->]|[-> H3]].
  { repeat split; simpl; intros; try discriminate; try congruence; eauto;
      intuition discriminate. }
  assert (N : ~ In level ["SAFE"; "CAUTION"; "DANGER"]) by (simpl; intuition congruence).
  assert (M : existsb (String.eqb level) AnalysisPanel.inherited = true
              <-> In level AnalysisPanel.inherited).
  { rewrite existsb_exists. split.
    - intros (x & Hx & E). apply String.eqb_eq in E. now subst.
    - intros Hx. exists level. split; [exact Hx|apply String.eqb_refl]. }
  destruct (existsb (String.eqb level) AnalysisPanel.inherited).
  - assert (I : In level AnalysisPanel.inherited) by now apply M.
    repeat split; intros; try tauto; try discriminate; try congruence.
    destruct H as [icon H]. discriminate.
  - assert (I : ~ In level AnalysisPanel.inherited)
      by (intros I; apply M in I; discriminate).
    repeat split; intros; try tauto; try discriminate; try congruence.
    destruct H as [icon H]. discriminate.
Qed.

(** A level the schema does not list makes rendering throw; the name of an
    inherited member is looked up successfully. *)
Example panel_throws_on_unlisted_level :
  AnalysisPanel.render (Some (Scenario.slowDown "WARNING")) false
  = AnalysisPanel.Throws (Scenario.slowDown "WARNING")
  /\ AnalysisPanel.render (Some (Scenario.slowDown "constructor")) false
     = AnalysisPanel.Stray (Scenario.slowDown "constructor") "constructor"
  /\ AnalysisPanel.render (Some (Scenario.slowDown "safe")) false
     = AnalysisPanel.Throws (Scenario.slowDown "safe").
Proof. vm_compute. repeat split. Qed.

(** ** More of the component *)

Lemma st_voiceEffect s w : st (voiceEffect s w) = st w.
Proof. pose proof (outside_voiceEffect s w) as H. unfold outsideEffects in H. congruence. Qed.

Lemma pending_voiceEffect s w : pending (voiceEffect s w) = pending w.
Proof. pose proof (outside_voiceEffect s w) as H. unfold outsideEffects in H. congruence. Qed.

Lemma console_voiceEffect s w : console (voiceEffect s w) = console w.
Proof. pose proof (outside_voiceEffect s w) as H. unfold outsideEffects in H. congruence. Qed.

Lemma videoRef_voiceEffect s w : videoRef (voiceEffect s w) = videoRef w.
Proof. unfold voiceEffect, speak. cases; reflexivity. Qed.

Lemma videoRef_autoScanCleanup w : videoRef (autoScanCleanup w) = videoRef w.
Proof. unfold autoScanCleanup, clearInterval. cases; reflexivity. Qed.

Lemma videoRef_autoScanEffect s w : videoRef (autoScanEffect s w) = videoRef w.
Proof. unfold autoScanEffect, setInterval, clearInterval. cases; reflexivity. Qed.

Lemma speech_attachEffect s w : speechSynthesis (attachEffect s w) = speechSynthesis w.
Proof. unfold attachEffect. cases; reflexivity. Qed.

Lemma speech_autoScanCleanup w : speechSynthesis (autoScanCleanup w) = speechSynthesis w.
Proof. unfold autoScanCleanup, clearInterval. cases; reflexivity. Qed.

Lemma speech_autoScanEffect s w : speechSynthesis (autoScanEffect s w) = speechSynthesis w.
Proof. unfold autoScanEffect, setInterval, clearInterval. cases; reflexivity. Qed.

Lemma autoScanDeps_same_mode (p s : State) :
  autoScanDeps_same p s = true -> mode p = mode s.
Proof.
  unfold autoScanDeps_same. rewrite !andb_true_iff.
  intros [[[[_ _] _] H] _]. now apply Mode_eqb_eq.
Qed.

Lemma attachDeps_same_mode (p s : State) :
  attachDeps_same p s = true -> mode p = mode s.
Proof.
  unfold attachDeps_same. rewrite andb_true_iff. intros [H _]. now apply Mode_eqb_eq.
Qed.

(** *** A successful analysis *)

(** X4: when an analysis comes back with one of the three safety levels,
    its result replaces the one shown, the error is cleared and [analyzing]
    is unset; the mode, the source, the stream, voice and auto-scan are as
    they were, the call leaves the pending ones, the timers and the console
    are untouched, and the panel shows the report of the new result with
    the icon of its level. *)
Theorem successful_analysis_replaces_result
    (w : World) (id : nat) (c : State) (url : string) (rest : list (nat * Task))
    (r : AnalysisResult) (icon : AnalysisPanel.Icon) :
  take id (pending w) = Some (AwaitAnalysis c url, rest) ->
  AnalysisPanel.SafetyIcon (safetyLevel r) = AnalysisPanel.Component icon ->
  result (st (step (AnalysisSettled id (inr r)) w)) = Some r
  /\ error (st (step (AnalysisSettled id (inr r)) w)) = None
  /\ analyzing (st (step (AnalysisSettled id (inr r)) w)) = false
  /\ mode (st (step (AnalysisSettled id (inr r)) w)) = mode (st w)
  /\ fileType (st (step (AnalysisSettled id (inr r)) w)) = fileType (st w)
  /\ mediaSource (st (step (AnalysisSettled id (inr r)) w)) = mediaSource (st w)
  /\ cameraStream (st (step (AnalysisSettled id (inr r)) w)) = cameraStream (st w)
  /\ isVoiceEnabled (st (step (AnalysisSettled id (inr r)) w)) = isVoiceEnabled (st w)
  /\ isAutoScan (st (step (AnalysisSettled id (inr r)) w)) = isAutoScan (st w)
  /\ pending (step (AnalysisSettled id (inr r)) w) = rest
  /\ timers (step (AnalysisSettled id (inr r)) w) = timers w
  /\ console (step (AnalysisSettled id (inr r)) w) = console w
  /\ Traces.panel (step (AnalysisSettled id (inr r)) w) = AnalysisPanel.Report r icon.
Proof.
  intros Ht Hi. rewrite (step_analysis_resolved _ _ _ _ _ _ Ht).
  set (w1 := captureAndAnalyze_settled c (inr r) (with_pending rest (nextTask w) w)).
  unfold Traces.panel.
  rewrite st_voiceEffect, pending_voiceEffect, console_voiceEffect.
  pose proof (timerPart_voiceEffect (st w1) w1) as T.
  apply timerPart_fields in T. destruct T as (T & _ & _). rewrite T.
  assert (P : AnalysisPanel.render (result (st w1)) (analyzing (st w1))
              = AnalysisPanel.Report r icon).
  { change (AnalysisPanel.render (Some r) false = AnalysisPanel.Report r icon).
    unfold AnalysisPanel.render. now rewrite Hi. }
  rewrite P. repeat split.
Qed.

Lemma successful_analysis_witness :
  result (st (step (AnalysisSettled 1 (inr (Scenario.slowDown "CAUTION")))
                (run Traces.cameraScan (init true))))
  = Some (Scenario.slowDown "CAUTION")
  /\ analyzing (st (step (AnalysisSettled 1 (inr (Scenario.slowDown "CAUTION")))
                      (run Traces.cameraScan (init true))))
     = false
  /\ Traces.panel (step (AnalysisSettled 1 (inr (Scenario.slowDown "CAUTION")))
                     (run Traces.cameraScan (init true)))
     = AnalysisPanel.Report (Scenario.slowDown "CAUTION") AnalysisPanel.ShieldAlert.
Proof.
  assert (Ht : take 1 (pending (run Traces.cameraScan (init true)))
               = Some (AwaitAnalysis
                         (st (run [ClickLiveCamera;
                                   CameraSettled 0 (Some Traces.frontCamera);
                                   VideoFrame 1280 720 "/9j/4AAQSkZJRg=="] (init true)))
                         "data:image/jpeg;base64,/9j/4AAQSkZJRg==", []))
    by (vm_compute; reflexivity).
  assert (Hi : AnalysisPanel.SafetyIcon (safetyLevel (Scenario.slowDown "CAUTION"))
               = AnalysisPanel.Component AnalysisPanel.ShieldAlert)
    by (vm_compute; reflexivity).
  destruct (successful_analysis_replaces_result _ _ _ _ _ (Scenario.slowDown "CAUTION")
              AnalysisPanel.ShieldAlert Ht Hi)
    as (H1 & _ & H3 & _ & _ & _ & _ & _ & _ & _ & _ & _ & H13).
  split; [exact H1|split; [exact H3|exact H13]].
Defined.

(** *** The camera *)

(** X5: when the camera is granted from the initial mode, the page is in
    camera mode with file type video, holds the stream, shows no error and no
    result, and the video element mounted by that render has the stream
    attached; no track is stopped. *)
Theorem camera_granted_attaches_stream
    (w : World) (id : nat) (rest : list (nat * Task)) (stream : MediaStream) :
  take id (pending w) = Some (AwaitCamera, rest) ->
  mode (st w) = initial ->
  mode (st (step (CameraSettled id (Some stream)) w)) = camera
  /\ fileType (st (step (CameraSettled id (Some stream)) w)) = Some video
  /\ cameraStream (st (step (CameraSettled id (Some stream)) w)) = Some stream
  /\ error (st (step (CameraSettled id (Some stream)) w)) = None
  /\ result (st (step (CameraSettled id (Some stream)) w)) = None
  /\ videoRef (step (CameraSettled id (Some stream)) w)
     = Some {| videoWidth := 0; videoHeight := 0; srcObject := Some stream; frame := "" |}
  /\ stoppedTracks (step (CameraSettled id (Some stream)) w) = stoppedTracks w.
Proof.
  intros Ht Hm. unfold step, handle. rewrite Ht.
  set (h := startCamera_settled (Some stream) (with_pending rest (nextTask w) w)).
  rewrite st_commit, stoppedTracks_commit.
  repeat split.
  unfold commit.
  assert (VM : videoMounted (st w) = false)
    by (unfold videoMounted; rewrite Hm; reflexivity).
  assert (DA : autoScanDeps_same (st w) (st h) = false).
  { destruct (autoScanDeps_same (st w) (st h)) eqn:D; [|reflexivity].
    apply autoScanDeps_same_mode in D. rewrite Hm in D. discriminate D. }
  assert (DT : attachDeps_same (st w) (st h) = false).
  { destruct (attachDeps_same (st w) (st h)) eqn:D; [|reflexivity].
    apply attachDeps_same_mode in D. rewrite Hm in D. discriminate D. }
  rewrite VM, DA, DT.
  change (videoMounted (st h)) with true. cbn [Bool.eqb].
  rewrite videoRef_autoScanEffect. unfold attachEffect.
  change (mode (st h)) with camera.
  change (cameraStream (st h)) with (Some stream).
  destruct (voiceDeps_same w h);
    rewrite ?videoRef_voiceEffect, videoRef_autoScanCleanup; reflexivity.
Qed.

Lemma camera_granted_witness :
  mode (st (step (CameraSettled 0 (Some Traces.frontCamera))
              (run [ClickLiveCamera] (init true)))) = camera
  /\ videoRef (step (CameraSettled 0 (Some Traces.frontCamera))
                 (run [ClickLiveCamera] (init true)))
     = Some {| videoWidth := 0; videoHeight := 0;
               srcObject := Some Traces.frontCamera; frame := "" |}.
Proof.
  assert (Ht : take 0 (pending (run [ClickLiveCamera] (init true)))
               = Some (AwaitCamera, [])) by (vm_compute; reflexivity).
  assert (Hm : mode (st (run [ClickLiveCamera] (init true))) = initial)
    by (vm_compute; reflexivity).
  destruct (camera_granted_attaches_stream _ _ _ Traces.frontCamera Ht Hm)
    as (H1 & _ & _ & _ & _ & H6 & _).
  split; [exact H1|exact H6].
Defined.

(** X6: when the camera is refused, the message "Could not access camera.
    Check permissions or try a different browser." is put in [error] and a
    line is written to the console; nothing else changes: the mode, the
    source, the stream, the result and the flags are as they were, and so
    are the video element, the timers and the speech queue. *)
Theorem camera_denied_sets_only_error
    (w : World) (id : nat) (rest : list (nat * Task)) :
  take id (pending w) = Some (AwaitCamera, rest) ->
  step (CameraSettled id None) w
  = setError (Some "Could not access camera. Check permissions or try a different browser.")
      (console_error "Error accessing camera:" (with_pending rest (nextTask w) w)).
Proof.
  intros Ht. unfold step, handle. rewrite Ht. now apply commit_quiet.
Qed.

Lemma camera_denied_witness :
  step (CameraSettled 0 None) (run [ClickLiveCamera] (init true))
  = setError (Some "Could not access camera. Check permissions or try a different browser.")
      (console_error "Error accessing camera:"
         (with_pending [] (nextTask (run [ClickLiveCamera] (init true)))
            (run [ClickLiveCamera] (init true)))).
Proof.
  assert (Ht : take 0 (pending (run [ClickLiveCamera] (init true)))
               = Some (AwaitCamera, [])) by (vm_compute; reflexivity).
  exact (camera_denied_sets_only_error _ _ _ Ht).
Defined.

(** *** Uploading a file *)

(** X7: choosing a file puts the page in upload mode with the file's URL as
    media source and clears the result and the error.  The file is a video
    exactly when its MIME type begins with [video/]; every other type, the
    empty one included, makes it an image.  A camera stream the page holds
    is kept and none of its tracks is stopped; auto-scan, [analyzing], voice
    and the calls in flight are as they were. *)
Theorem upload_sets_source (w : World) (url mime : string) :
  mode (st (step (FileChosen (Some (url, mime))) w)) = upload
  /\ mediaSource (st (step (FileChosen (Some (url, mime))) w)) = Some url
  /\ fileType (st (step (FileChosen (Some (url, mime))) w))
     = Some (if starts_with "video/" mime then video else image)
  /\ result (st (step (FileChosen (Some (url, mime))) w)) = None
  /\ error (st (step (FileChosen (Some (url, mime))) w)) = None
  /\ cameraStream (st (step (FileChosen (Some (url, mime))) w)) = cameraStream (st w)
  /\ stoppedTracks (step (FileChosen (Some (url, mime))) w) = stoppedTracks w
  /\ isAutoScan (st (step (FileChosen (Some (url, mime))) w)) = isAutoScan (st w)
  /\ analyzing (st (step (FileChosen (Some (url, mime))) w)) = analyzing (st w)
  /\ isVoiceEnabled (st (step (FileChosen (Some (url, mime))) w)) = isVoiceEnabled (st w)
  /\ pending (step (FileChosen (Some (url, mime))) w) = pending w.
Proof.
  unfold step. rewrite st_commit, stoppedTracks_commit, pending_commit.
  unfold handle, handleFileUpload.
  destruct (starts_with "video/" mime); repeat split.
Qed.

(** *** Voice *)

Lemma voiceEffect_muted s w : isVoiceEnabled s = false -> voiceEffect s w = w.
Proof. intros H. unfold voiceEffect. rewrite H. now destruct (result s). Qed.

(** What the voice effect queues, read off the shown result. *)
Lemma speech_voiceEffect s w r q :
  result s = Some r -> isVoiceEnabled s = true -> speechSynthesis w = Some q ->
  speechSynthesis (voiceEffect s w)
  = Some (if String.eqb (safetyLevel r) "DANGER" then ["Warning. " ++ recommendation r]
          else if String.eqb (safetyLevel r) "CAUTION"
               then (q ++ [("Caution. " ++ recommendation r)%string])%list
               else if isAutoScan s then q else (q ++ [recommendation r])%list).
Proof.
  intros Hr Hv Hq. unfold voiceEffect, speak. rewrite Hr, Hv, Hq. cbn [negb].
  destruct (String.eqb (safetyLevel r) "DANGER"); [reflexivity|].
  destruct (String.eqb (safetyLevel r) "CAUTION"); [reflexivity|].
  destruct (isAutoScan s); [exact Hq|reflexivity].
Qed.

Lemma speech_commit_muted p w :
  isVoiceEnabled (st w) = false -> speechSynthesis (commit p w) = speechSynthesis w.
Proof.
  intros H. unfold commit.
  repeat match goal with
         | |- context [if ?b then _ else _] => destruct b
         end;
    rewrite ?speech_autoScanEffect, ?speech_attachEffect;
    rewrite ?(voiceEffect_muted (st w)) by exact H;
    rewrite ?speech_autoScanCleanup; reflexivity.
Qed.

Lemma handle_speech e w :
  e <> ClickVoice -> e <> SpeechEnded ->
  speechSynthesis (handle e w) = speechSynthesis w
  /\ isVoiceEnabled (st (handle e w)) = isVoiceEnabled (st w).
Proof.
  intros H1 H2.
  destruct e; try congruence; unfold_handlers; cases; split; reflexivity.
Qed.

(** X8: while voice is off the page never speaks: whatever happens (a
    result of any level arrives, auto-scan is toggled, the page is reset),
    as long as the voice button is not clicked the speech queue only changes
    by the browser finishing an utterance, and voice stays off. *)
Theorem muted_page_never_speaks (es : list Event) (w : World) :
  isVoiceEnabled (st w) = false ->
  Forall (fun e => e <> ClickVoice /\ e <> SpeechEnded) es ->
  speechSynthesis (run es w) = speechSynthesis w
  /\ isVoiceEnabled (st (run es w)) = false.
Proof.
  revert w. induction es as [|e es IH]; intros w Hv Hes; simpl; [now split|].
  inversion Hes as [|e' es' [H1 H2] Hes']; subst.
  destruct (handle_speech e w H1 H2) as [Hs Hm].
  assert (Hv' : isVoiceEnabled (st (step e w)) = false).
  { unfold step. rewrite st_commit. congruence. }
  destruct (IH (step e w) Hv' Hes') as [I1 I2].
  split; [|exact I2].
  rewrite I1. unfold step. rewrite speech_commit_muted by congruence. exact Hs.
Qed.

Lemma muted_page_witness :
  speechSynthesis
    (run [Scenario.uploadImage; ClickScan; ImageSettled 0 (Some Scenario.pngUrl);
          AnalysisSettled 1 (inr (Scenario.slowDown "DANGER"))]
       (run (Scenario.voicedScan "SAFE" ++ [ClickVoice]) (init true)))
  = speechSynthesis (run (Scenario.voicedScan "SAFE" ++ [ClickVoice]) (init true))
  /\ isVoiceEnabled
       (st (run [Scenario.uploadImage; ClickScan; ImageSettled 0 (Some Scenario.pngUrl);
                 AnalysisSettled 1 (inr (Scenario.slowDown "DANGER"))]
              (run (Scenario.voicedScan "SAFE" ++ [ClickVoice]) (init true))))
     = false.
Proof.
  apply muted_page_never_speaks.
  - vm_compute. reflexivity.
  - repeat constructor; discriminate.
Defined.

(** The voice button re-renders with [isVoiceEnabled] changed, so the commit
    runs the voice effect and no other. *)
Lemma step_voice_click w :
  step ClickVoice w
  = voiceEffect (st (toggleVoice (st w) w)) (toggleVoice (st w) w).
Proof.
  unfold step, handle, commit.
  set (h := toggleVoice (st w) w).
  assert (S : st h = st (setIsVoiceEnabled (negb (isVoiceEnabled (st w))) w)).
  { unfold h, toggleVoice, speech_cancel.
    destruct (isVoiceEnabled (st w)); cbn [negb]; [|reflexivity].
    destruct (speechSynthesis (setIsVoiceEnabled false w)); reflexivity. }
  assert (G : resultGen h = resultGen w).
  { unfold h, toggleVoice, speech_cancel.
    destruct (isVoiceEnabled (st w)); cbn [negb]; [|reflexivity].
    destruct (speechSynthesis (setIsVoiceEnabled false w)); reflexivity. }
  assert (A : autoScanDeps_same (st w) (st h) = true)
    by (rewrite S; apply autoScanDeps_same_fields; reflexivity).
  assert (B : attachDeps_same (st w) (st h) = true)
    by (rewrite S; apply attachDeps_same_fields; reflexivity).
  assert (M : videoMounted (st w) = videoMounted (st h)) by (rewrite S; reflexivity).
  assert (V : voiceDeps_same w h = false).
  { unfold voiceDeps_same. rewrite S. simpl.
    destruct (isVoiceEnabled (st w)); simpl; now rewrite ?andb_false_r. }
  rewrite A, B, V, M, Bool.eqb_reflx. reflexivity.
Qed.

(** X9: switching voice off empties the speech queue (the utterance being
    spoken and those waiting), and nothing is queued by the re-render. *)
Theorem muting_cancels_speech (w : World) :
  isVoiceEnabled (st w) = true ->
  isVoiceEnabled (st (step ClickVoice w)) = false
  /\ speechSynthesis (step ClickVoice w)
     = match speechSynthesis w with Some _ => Some [] | None => None end.
Proof.
  intros Hv. rewrite step_voice_click.
  assert (E : isVoiceEnabled (st (toggleVoice (st w) w)) = false).
  { unfold toggleVoice, speech_cancel. rewrite Hv. cbn [negb].
    destruct (speechSynthesis (setIsVoiceEnabled false w)); reflexivity. }
  rewrite (voiceEffect_muted _ _ E). split; [exact E|].
  unfold toggleVoice, speech_cancel. rewrite Hv. cbn [negb].
  change (speechSynthesis (setIsVoiceEnabled false w)) with (speechSynthesis w).
  destruct (speechSynthesis w) eqn:Q; [reflexivity|exact Q].
Qed.

Lemma muting_witness :
  isVoiceEnabled (st (step ClickVoice (run (Scenario.voicedScan "SAFE") (init true))))
  = false
  /\ speechSynthesis (step ClickVoice (run (Scenario.voicedScan "SAFE") (init true)))
     = match speechSynthesis (run (Scenario.voicedScan "SAFE") (init true)) with
       | Some _ => Some []
       | None => None
       end.
Proof.
  apply muting_cancels_speech. vm_compute. reflexivity.
Defined.

(** X10: switching voice on while a result is shown speaks that result
    again, by the rules of a new result: a DANGER result empties the queue
    and queues its warning, a CAUTION result is queued, any other result is
    queued unless auto-scan is on. *)
Theorem unmuting_speaks_shown_result
    (w : World) (r : AnalysisResult) (q : list string) :
  isVoiceEnabled (st w) = false ->
  speechSynthesis w = Some q ->
  result (st w) = Some r ->
  speechSynthesis (step ClickVoice w)
  = Some (if String.eqb (safetyLevel r) "DANGER" then ["Warning. " ++ recommendation r]
          else if String.eqb (safetyLevel r) "CAUTION"
               then (q ++ [("Caution. " ++ recommendation r)%string])%list
               else if isAutoScan (st w) then q else (q ++ [recommendation r])%list).
Proof.
  intros Hv Hq Hr. rewrite step_voice_click.
  assert (T : toggleVoice (st w) w = setIsVoiceEnabled true w).
  { unfold toggleVoice. rewrite Hv. reflexivity. }
  rewrite T.
  rewrite (speech_voiceEffect (st (setIsVoiceEnabled true w)) _ r q);
    [reflexivity|exact Hr|reflexivity|exact Hq].
Qed.

Lemma unmuting_witness :
  speechSynthesis
    (step ClickVoice (run (Scenario.voicedScan "SAFE" ++ [ClickVoice]) (init true)))
  = Some ["Slow down"].
Proof.
  assert (Hv : isVoiceEnabled
                 (st (run (Scenario.voicedScan "SAFE" ++ [ClickVoice]) (init true)))
               = false) by (vm_compute; reflexivity).
  assert (Hq : speechSynthesis (run (Scenario.voicedScan "SAFE" ++ [ClickVoice]) (init true))
               = Some []) by (vm_compute; reflexivity).
  assert (Hr : result (st (run (Scenario.voicedScan "SAFE" ++ [ClickVoice]) (init true)))
               = Some (Scenario.slowDown "SAFE")) by (vm_compute; reflexivity).
  exact (unmuting_speaks_shown_result _ _ _ Hv Hq Hr).
Defined.

(** The AUTO button re-renders with [isAutoScan] changed: the commit runs
    the clean-up of the auto-scan effect, the voice effect and the auto-scan
    effect. *)
Lemma step_auto_click w :
  autoButton (st w) = true ->
  step ClickAuto w
  = autoScanEffect (st (setIsAutoScan (negb (isAutoScan (st w))) w))
      (voiceEffect (st (setIsAutoScan (negb (isAutoScan (st w))) w))
         (autoScanCleanup (setIsAutoScan (negb (isAutoScan (st w))) w))).
Proof.
  intros Hb. unfold step, handle. rewrite Hb. unfold commit.
  set (h := setIsAutoScan (negb (isAutoScan (st w))) w).
  assert (A : autoScanDeps_same (st w) (st h) = false).
  { destruct (autoScanDeps_same (st w) (st h)) eqn:D; [|reflexivity].
    apply autoScanDeps_same_isAutoScan in D.
    change (isAutoScan (st h)) with (negb (isAutoScan (st w))) in D.
    destruct (isAutoScan (st w)); discriminate D. }
  assert (B : attachDeps_same (st w) (st h) = true)
    by (apply attachDeps_same_fields; reflexivity).
  assert (M : videoMounted (st w) = videoMounted (st h)) by reflexivity.
  assert (V : voiceDeps_same w h = false).
  { unfold voiceDeps_same.
    change (isAutoScan (st h)) with (negb (isAutoScan (st w))).
    destruct (isAutoScan (st w)); simpl; now rewrite ?andb_false_r. }
  rewrite A, B, V, M, Bool.eqb_reflx. reflexivity.
Qed.

(** X11: the voice effect also depends on [isAutoScan], so clicking AUTO or
    STOP with voice on speaks the result that is already shown: a DANGER
    result empties the queue and is announced again, a CAUTION result is
    queued again, and any other result is queued when auto-scan is being
    switched off (and not when it is being switched on). *)
Theorem auto_toggle_speaks_shown_result
    (w : World) (r : AnalysisResult) (q : list string) :
  autoButton (st w) = true ->
  isVoiceEnabled (st w) = true ->
  speechSynthesis w = Some q ->
  result (st w) = Some r ->
  speechSynthesis (step ClickAuto w)
  = Some (if String.eqb (safetyLevel r) "DANGER" then ["Warning. " ++ recommendation r]
          else if String.eqb (safetyLevel r) "CAUTION"
               then (q ++ [("Caution. " ++ recommendation r)%string])%list
               else if isAutoScan (st w) then (q ++ [recommendation r])%list else q).
Proof.
  intros Hb Hv Hq Hr. rewrite (step_auto_click w Hb).
  rewrite speech_autoScanEffect.
  rewrite (speech_voiceEffect _ _ r q);
    [|exact Hr|exact Hv|rewrite speech_autoScanCleanup; exact Hq].
  change (isAutoScan (st (setIsAutoScan (negb (isAutoScan (st w))) w)))
    with (negb (isAutoScan (st w))).
  destruct (isAutoScan (st w)); reflexivity.
Qed.

Lemma auto_toggle_witness :
  speechSynthesis
    (step ClickAuto
       (run (ClickVoice :: Traces.autoDuringScan ++ [SpeechEnded])%list (init true)))
  = Some ["Slow down"].
Proof.
  assert (Hb : autoButton
                 (st (run (ClickVoice :: Traces.autoDuringScan ++ [SpeechEnded])%list
                        (init true))) = true) by (vm_compute; reflexivity).
  assert (Hv : isVoiceEnabled
                 (st (run (ClickVoice :: Traces.autoDuringScan ++ [SpeechEnded])%list
                        (init true))) = true) by (vm_compute; reflexivity).
  assert (Hq : speechSynthesis
                 (run (ClickVoice :: Traces.autoDuringScan ++ [SpeechEnded])%list
                    (init true)) = Some []) by (vm_compute; reflexivity).
  assert (Hr : result
                 (st (run (ClickVoice :: Traces.autoDuringScan ++ [SpeechEnded])%list
                        (init true))) = Some (Scenario.slowDown "SAFE"))
    by (vm_compute; reflexivity).
  exact (auto_toggle_speaks_shown_result _ _ _ Hb Hv Hq Hr).
Defined.

(** *** The guard seen by the interval *)

Lemma step_tick_guarded w id c :
  find_timer id w = Some c -> analyzing c = true ->
  step (Tick id) w = with_scheduledScans (S (scheduledScans w)) w.
Proof.
  intros Hf Ha. unfold step, handle. rewrite Hf.
  rewrite (captureAndAnalyze_guard _ _ Ha). now apply commit_quiet.
Qed.

(** X12: an interval created by a render in which [analyzing] was set (AUTO
    clicked while a scan was in flight) never scans: each of its ticks calls
    captureAndAnalyze and returns at the guard, however many ticks come and
    although the analysis may long be over; no call is started and no state
    cell, timer or pending call changes. *)
Theorem interval_of_a_busy_render_never_scans
    (n : nat) (w : World) (id : nat) (c : State) :
  find_timer id w = Some c ->
  analyzing c = true ->
  st (run (repeat (Tick id) n) w) = st w
  /\ pending (run (repeat (Tick id) n) w) = pending w
  /\ timers (run (repeat (Tick id) n) w) = timers w
  /\ scheduledScans (run (repeat (Tick id) n) w) = n + scheduledScans w.
Proof.
  intros Hf Ha. revert w Hf. induction n as [|n IH]; intros w Hf; simpl.
  - repeat split.
  - rewrite (step_tick_guarded w id c Hf Ha).
    destruct (IH (with_scheduledScans (S (scheduledScans w)) w) Hf) as (I1 & I2 & I3 & I4).
    rewrite I1, I2, I3, I4. repeat split. simpl. lia.
Qed.

Lemma interval_of_a_busy_render_witness :
  analyzing (st (run Traces.autoDuringScan (init true))) = false
  /\ isAutoScan (st (run Traces.autoDuringScan (init true))) = true
  /\ pending (run (repeat (Tick 1) 3) (run Traces.autoDuringScan (init true)))
     = pending (run Traces.autoDuringScan (init true))
  /\ scheduledScans (run (repeat (Tick 1) 3) (run Traces.autoDuringScan (init true)))
     = 3 + scheduledScans (run Traces.autoDuringScan (init true)).
Proof.
  assert (Hf : find_timer 1 (run Traces.autoDuringScan (init true))
               = Some (st (run Scenario.manualThenAuto (init true))))
    by (vm_compute; reflexivity).
  assert (Ha : analyzing (st (run Scenario.manualThenAuto (init true))) = true)
    by (vm_compute; reflexivity).
  destruct (interval_of_a_busy_render_never_scans 3 _ 1 _ Hf Ha) as (_ & H2 & _ & H4).
  split; [vm_compute; reflexivity|]. split; [vm_compute; reflexivity|].
  split; [exact H2|exact H4].
Defined.

(** *** Reset and unmount against calls in flight *)

Lemma pending_reset c w : pending (reset c w) = pending w.
Proof. unfold reset, stopCamera. cases; reflexivity. Qed.



(** X14: unmounting stops no camera track and cancels no pending call: the
    clean-up that would stop the tracks closed over the first render, where
    no stream was held, so a stream acquired later keeps running; the state
    cells are as they were. *)
Theorem unmount_leaves_camera_running (w : World) :
  stoppedTracks (unmount w) = stoppedTracks w
  /\ st (unmount w) = st w
  /\ pending (unmount w) = pending w.
Proof.
  pose proof (outside_autoScanCleanup (autoScanCleanup w)) as H1.
  pose proof (outside_autoScanCleanup w) as H2.
  unfold unmount. cbn [initialState cameraStream].
  unfold outsideEffects in *. repeat split; congruence.
Qed.

(** *** Capturing a frame *)

(** X15: on a video source whose element has a size and whose canvas gives
    a 2D context, a call that passes the guard sizes the canvas to the video,
    draws the frame, sets [analyzing] and submits the JPEG data URL of the
    canvas; the analysis client strips that prefix, so the model receives the
    bare base64 of the frame. *)
Theorem video_frame_is_sent_raw (c : State) (w : World) (v : Video) (cv : Canvas) :
  analyzing c = false ->
  fileType c = Some video ->
  videoRef w = Some v ->
  canvasRef w = Some cv ->
  has2d cv = true ->
  videoWidth v <> 0 ->
  videoHeight v <> 0 ->
  analyzing (st (captureAndAnalyze c w)) = true
  /\ pending (captureAndAnalyze c w)
     = (pending w
          ++ [(nextTask w, AwaitAnalysis c ("data:image/jpeg;base64," ++ frame v))])%list
  /\ canvasRef (captureAndAnalyze c w)
     = Some {| width := videoWidth v; height := videoHeight v;
               has2d := true; pixels := frame v |}
  /\ GeminiService.data
       (GeminiService.inlineData
          (GeminiService.request ("data:image/jpeg;base64," ++ frame v)))
     = frame v.
Proof.
  intros Ha Hf Hv Hc H2 Hw Hh.
  unfold captureAndAnalyze. rewrite Ha, Hf, Hv, Hc, H2.
  destruct (Nat.eqb_spec (videoWidth v) 0) as [E|_]; [contradiction|].
  destruct (Nat.eqb_spec (videoHeight v) 0) as [E|_]; [contradiction|].
  cbn [orb]. split; [reflexivity|]. split; [reflexivity|]. split; [reflexivity|].
  rewrite request_data.
  exact (cleanBase64_listed "jpeg" (frame v) (or_intror (or_introl eq_refl))).
Qed.

Lemma video_frame_witness :
  analyzing
    (st (captureAndAnalyze
           (st (run [Scenario.uploadVideo; VideoFrame 640 480 "/9j/4AAQSkZJRg=="] (init true)))
           (run [Scenario.uploadVideo; VideoFrame 640 480 "/9j/4AAQSkZJRg=="] (init true))))
  = true
  /\ GeminiService.data
       (GeminiService.inlineData
          (GeminiService.request ("data:image/jpeg;base64," ++ "/9j/4AAQSkZJRg==")))
     = "/9j/4AAQSkZJRg==".
Proof.
  assert (Hv : videoRef (run [Scenario.uploadVideo; VideoFrame 640 480 "/9j/4AAQSkZJRg=="]
                           (init true))
               = Some {| videoWidth := 640; videoHeight := 480; srcObject := None;
                         frame := "/9j/4AAQSkZJRg==" |}) by (vm_compute; reflexivity).
  assert (Hc : canvasRef (run [Scenario.uploadVideo; VideoFrame 640 480 "/9j/4AAQSkZJRg=="]
                            (init true))
               = Some {| width := 300; height := 150; has2d := true; pixels := "" |})
    by (vm_compute; reflexivity).
  assert (Ha : analyzing
                 (st (run [Scenario.uploadVideo; VideoFrame 640 480 "/9j/4AAQSkZJRg=="]
                        (init true))) = false) by (vm_compute; reflexivity).
  assert (Hf : fileType
                 (st (run [Scenario.uploadVideo; VideoFrame 640 480 "/9j/4AAQSkZJRg=="]
                        (init true))) = Some video) by (vm_compute; reflexivity).
  destruct (video_frame_is_sent_raw _ _ _ _ Ha Hf Hv Hc eq_refl
              (fun E : 640 = 0 => O_S _ (eq_sym E)) (fun E : 480 = 0 => O_S _ (eq_sym E)))
    as (H1 & _ & _ & H4).
  split; [exact H1|exact H4].
Defined.

(** *** The in-flight flag *)

Lemma take_count {A : Type} (p : nat * A -> bool) (id : nat) (l rest : list (nat * A))
    (t : A) :
  take id l = Some (t, rest) ->
  length (filter p l) = (if p (id, t) then 1 else 0) + length (filter p rest).
Proof.
  revert rest. induction l as [|[i a] l IH]; intros rest; simpl; [discriminate|].
  destruct (Nat.eqb_spec i id) as [->|Hne].
  - intros H. injection H as -> ->. destruct (p (id, t)); reflexivity.
  - destruct (take id l) as [[b r]|]; [|discriminate].
    intros H. injection H as -> <-. specialize (IH _ eq_refl). simpl.
    destruct (p (i, a)); simpl; rewrite IH; lia.
Qed.

Lemma count_spawn (p : nat * Task -> bool) (t : Task) (w : World) :
  length (filter p (pending (spawn t w)))
  = length (filter p (pending w)) + (if p (nextTask w, t) then 1 else 0).
Proof.
  unfold spawn. cbn [pending with_pending].
  rewrite filter_app, length_app. simpl. now destruct (p (nextTask w, t)).
Qed.

Lemma flagMoves_refl w : Traces.flagMoves w w.
Proof. left. now split. Qed.

Lemma flagMoves_same w w' :
  analyzing (st w') = analyzing (st w) -> pending w' = pending w -> Traces.flagMoves w w'.
Proof. intros H1 H2. left. split; [exact H1|]. unfold activeAnalyses. now rewrite H2. Qed.

Lemma submit_moves c o w : Traces.flagMoves w (submit c o w).
Proof.
  unfold submit. destruct o as [url|]; [|apply flagMoves_refl].
  destruct (truthy url); [|apply flagMoves_refl].
  right. left. split; [reflexivity|].
  unfold activeAnalyses. rewrite count_spawn. unfold isAnalysis at 2. simpl. lia.
Qed.

Lemma flagMoves_after w w1 w' :
  analyzing (st w1) = analyzing (st w) -> activeAnalyses w1 = activeAnalyses w ->
  Traces.flagMoves w1 w' -> Traces.flagMoves w w'.
Proof. unfold Traces.flagMoves. intros <- <-. tauto. Qed.

Lemma captureAndAnalyze_moves c w : Traces.flagMoves w (captureAndAnalyze c w).
Proof.
  unfold captureAndAnalyze.
  destruct (analyzing c); [apply flagMoves_refl|].
  destruct (fileType c) as [[|]|].
  - destruct (truthy_opt (mediaSource c)); [|apply flagMoves_refl].
    left. split; [reflexivity|]. unfold activeAnalyses. rewrite count_spawn.
    unfold isAnalysis at 2. simpl. lia.
  - destruct (videoRef w) as [v|]; [|apply submit_moves].
    destruct (canvasRef w) as [cv|]; [|apply submit_moves].
    destruct (Nat.eqb (videoWidth v) 0 || Nat.eqb (videoHeight v) 0);
      [apply flagMoves_refl|].
    destruct (has2d cv).
    + eapply flagMoves_after; [| |apply submit_moves]; reflexivity.
    + eapply flagMoves_after; [| |apply submit_moves]; reflexivity.
  - apply submit_moves.
Qed.

(** A handler moves the flag as [flagMoves] says, and it submits a call only
    from the SCAN button, from a tick of a registered interval, or when the
    image of a suspended call has been read. *)
Lemma handle_moves_origin e w :
  Traces.flagMoves w (handle e w)
  /\ (activeAnalyses (handle e w) = S (activeAnalyses w) ->
      (e = ClickScan /\ scanButton (st w) = true)
      \/ (exists id c, e = Tick id /\ find_timer id w = Some c)
      \/ (exists id o c rest,
            e = ImageSettled id o /\ take id (pending w) = Some (AwaitImage c, rest))).
Proof.
  assert (K : forall w', Traces.flagMoves w w' ->
                (analyzing (st w') = analyzing (st w) /\ activeAnalyses w' = activeAnalyses w
                 \/ analyzing (st w') = false
                    /\ activeAnalyses w = S (activeAnalyses w')) ->
                Traces.flagMoves w w'
                /\ (activeAnalyses w' = S (activeAnalyses w) ->
                    (e = ClickScan /\ scanButton (st w) = true)
                    \/ (exists id c, e = Tick id /\ find_timer id w = Some c)
                    \/ (exists id o c rest,
                          e = ImageSettled id o
                          /\ take id (pending w) = Some (AwaitImage c, rest)))).
  { intros w' F [[_ H]|[_ H]]; (split; [exact F|]); intros E; lia. }
  assert (R : Traces.flagMoves w w
              /\ (activeAnalyses w = S (activeAnalyses w) ->
                  (e = ClickScan /\ scanButton (st w) = true)
                  \/ (exists id c, e = Tick id /\ find_timer id w = Some c)
                  \/ (exists id o c rest,
                        e = ImageSettled id o
                        /\ take id (pending w) = Some (AwaitImage c, rest)))).
  { apply K; [apply flagMoves_refl|]. left. now split. }
  destruct e; unfold handle; cbv zeta.
  - destruct (Mode_eqb (mode (st w)) initial); [|exact R].
    assert (N : activeAnalyses (startCamera w) = activeAnalyses w).
    { unfold startCamera, activeAnalyses. rewrite count_spawn.
      unfold isAnalysis at 2. simpl. lia. }
    apply K; [|left; now split]. left. now split.
  - destruct (take id (pending w)) as [[[| |] rest]|] eqn:T; try exact R.
    assert (N : activeAnalyses
                  (startCamera_settled outcome (with_pending rest (nextTask w) w))
                = activeAnalyses w).
    { unfold activeAnalyses at 2. rewrite (take_count isAnalysis _ _ _ _ T).
      destruct outcome; reflexivity. }
    assert (A : analyzing
                  (st (startCamera_settled outcome (with_pending rest (nextTask w) w)))
                = analyzing (st w)) by (destruct outcome; reflexivity).
    apply K; [|left; now split]. left. now split.
  - assert (F : Traces.flagMoves w (handleFileUpload file w))
      by (apply flagMoves_same; unfold handleFileUpload; cases; reflexivity).
    apply K; [exact F|]. left. split; unfold handleFileUpload, activeAnalyses;
      cases; reflexivity.
  - destruct (scanButton (st w)) eqn:B; [|exact R].
    split; [apply captureAndAnalyze_moves|]. intros _. left. now split.
  - destruct (autoButton (st w)); [|exact R].
    apply K; [apply flagMoves_same; reflexivity|]. left. now split.
  - destruct (resetButton (st w)); [|exact R].
    assert (A : analyzing (st (reset (st w) w)) = analyzing (st w))
      by (unfold reset, stopCamera; cases; reflexivity).
    assert (N : activeAnalyses (reset (st w) w) = activeAnalyses w)
      by (unfold activeAnalyses; now rewrite pending_reset).
    apply K; [|left; now split]. left. now split.
  - assert (A : analyzing (st (toggleVoice (st w) w)) = analyzing (st w))
      by (unfold toggleVoice, speech_cancel; cases; reflexivity).
    assert (N : activeAnalyses (toggleVoice (st w) w) = activeAnalyses w)
      by (unfold activeAnalyses, toggleVoice, speech_cancel; cases; reflexivity).
    apply K; [|left; now split]. left. now split.
  - destruct (find_timer id w) as [c|] eqn:Tm; [|exact R].
    split.
    + eapply flagMoves_after; [| |apply captureAndAnalyze_moves]; reflexivity.
    + intros _. right. left. exists id, c. now split.
  - destruct (take id (pending w)) as [[[|c|] rest]|] eqn:T; try exact R.
    assert (N : activeAnalyses (with_pending rest (nextTask w) w) = activeAnalyses w).
    { unfold activeAnalyses at 2. now rewrite (take_count isAnalysis _ _ _ _ T). }
    split.
    + unfold captureAndAnalyze_image. destruct outcome as [url|].
      * eapply flagMoves_after; [|exact N|apply submit_moves]. reflexivity.
      * left. split; [reflexivity|exact N].
    + intros _. right. right. exists id, outcome, c, rest. now split.
  - destruct (take id (pending w)) as [[[| |c url] rest]|] eqn:T; try exact R.
    assert (N : activeAnalyses w
                = S (activeAnalyses
                       (captureAndAnalyze_settled c outcome
                          (analyzeRoadScene_settled outcome
                             (with_pending rest (nextTask w) w))))).
    { unfold activeAnalyses at 1. rewrite (take_count isAnalysis _ _ _ _ T).
      unfold captureAndAnalyze_settled, analyzeRoadScene_settled.
      destruct outcome; try destruct (isAutoScan c); reflexivity. }
    assert (A : analyzing
                  (st (captureAndAnalyze_settled c outcome
                         (analyzeRoadScene_settled outcome
                            (with_pending rest (nextTask w) w)))) = false)
      by (destruct outcome; reflexivity).
    apply K; [|right; now split]. right. right. now split.
  - destruct (videoRef w); exact R.
  - destruct (speechSynthesis w) as [[|u q]|]; exact R.
Qed.

Lemma handle_moves e w : Traces.flagMoves w (handle e w).
Proof. apply handle_moves_origin. Qed.

Lemma step_moves e w : Traces.flagMoves w (step e w).
Proof.
  pose proof (handle_moves e w) as H. unfold step, Traces.flagMoves, activeAnalyses in *.
  now rewrite st_commit, pending_commit.
Qed.

(** X16: [analyzing] is never set without an analysis in flight: in every
    state the page can reach, if [analyzing] is true at least one call of the
    analysis client is pending, so the flag is cleared as soon as one of them
    settles and the SCAN button cannot stay disabled for good. *)
Theorem analyzing_has_a_call_in_flight (speech : bool) (es : list Event) :
  analyzing (st (run es (init speech))) = true ->
  1 <= activeAnalyses (run es (init speech)).
Proof.
  assert (G : forall es w,
             (analyzing (st w) = true -> 1 <= activeAnalyses w) ->
             analyzing (st (run es w)) = true -> 1 <= activeAnalyses (run es w)).
  { clear es. induction es as [|e es IH]; intros w Hw; simpl; [exact Hw|].
    apply IH. intros Ha.
    destruct (step_moves e w) as [[H1 H2]|[[H1 H2]|[H1 H2]]].
    - rewrite H2. apply Hw. congruence.
    - rewrite H2. lia.
    - congruence. }
  apply G. simpl. discriminate.
Qed.

Lemma analyzing_has_a_call_witness :
  1 <= activeAnalyses (run Traces.cameraScan (init true)).
Proof.
  apply (analyzing_has_a_call_in_flight true Traces.cameraScan).
  vm_compute. reflexivity.
Defined.

(** *** Scans by hand on a video source *)

Lemma fileType_captureAndAnalyze c w : fileType (st (captureAndAnalyze c w)) = fileType (st w).
Proof. unfold captureAndAnalyze, submit. cases; reflexivity. Qed.

Lemma handle_fileType e w :
  Traces.videoManual e = true ->
  fileType (st w) <> Some image ->
  fileType (st (handle e w)) <> Some image.
Proof.
  intros Hm Hf. destruct e; unfold handle; cbv zeta.
  - destruct (Mode_eqb (mode (st w)) initial); exact Hf.
  - destruct (take id (pending w)) as [[[| |] rest]|]; try exact Hf.
    destruct outcome; [discriminate|exact Hf].
  - destruct file as [[url mime]|]; [|exact Hf].
    simpl in Hm. unfold handleFileUpload. rewrite Hm. discriminate.
  - destruct (scanButton (st w)); [|exact Hf]. now rewrite fileType_captureAndAnalyze.
  - discriminate Hm.
  - destruct (resetButton (st w)); [|exact Hf].
    unfold reset, stopCamera. cases; discriminate.
  - unfold toggleVoice, speech_cancel. cases; exact Hf.
  - destruct (find_timer id w); [|exact Hf]. now rewrite fileType_captureAndAnalyze.
  - destruct (take id (pending w)) as [[[| |] rest]|]; try exact Hf.
    unfold captureAndAnalyze_image, submit. cases; exact Hf.
  - destruct (take id (pending w)) as [[[| |] rest]|]; try exact Hf.
    unfold captureAndAnalyze_settled. cases; exact Hf.
  - destruct (videoRef w); exact Hf.
  - destruct (speechSynthesis w) as [[|u q]|]; exact Hf.
Qed.

Lemma imageTasks_submit c o w :
  length (filter Traces.isImageTask (pending (submit c o w)))
  = length (filter Traces.isImageTask (pending w)).
Proof.
  unfold submit. destruct o as [url|]; [|reflexivity].
  destruct (truthy url); [|reflexivity].
  rewrite count_spawn. unfold Traces.isImageTask at 2. simpl. apply Nat.add_0_r.
Qed.

Lemma imageTasks_captureAndAnalyze c w :
  fileType c <> Some image ->
  length (filter Traces.isImageTask (pending (captureAndAnalyze c w)))
  = length (filter Traces.isImageTask (pending w)).
Proof.
  intros Hf. unfold captureAndAnalyze.
  destruct (analyzing c); [reflexivity|].
  destruct (fileType c) as [[|]|]; [contradiction| |apply imageTasks_submit].
  destruct (videoRef w) as [v|]; [|apply imageTasks_submit].
  destruct (canvasRef w) as [cv|]; [|apply imageTasks_submit].
  destruct (Nat.eqb (videoWidth v) 0 || Nat.eqb (videoHeight v) 0); [reflexivity|].
  destruct (has2d cv); now rewrite imageTasks_submit.
Qed.

(** With a video source and no timer, no handler leaves an image read
    pending. *)
Lemma handle_imageTasks e w :
  fileType (st w) <> Some image ->
  timers w = [] ->
  length (filter Traces.isImageTask (pending w)) = 0 ->
  length (filter Traces.isImageTask (pending (handle e w))) = 0.
Proof.
  intros Hf Ht H0. destruct e; unfold handle; cbv zeta.
  - destruct (Mode_eqb (mode (st w)) initial); [|exact H0].
    unfold startCamera. rewrite count_spawn, H0. reflexivity.
  - destruct (take id (pending w)) as [[[| |] rest]|] eqn:T; try exact H0.
    rewrite (take_count Traces.isImageTask _ _ _ _ T) in H0.
    destruct outcome; simpl in *; lia.
  - unfold handleFileUpload. cases; exact H0.
  - destruct (scanButton (st w)); [|exact H0].
    now rewrite imageTasks_captureAndAnalyze.
  - destruct (autoButton (st w)); exact H0.
  - destruct (resetButton (st w)); [|exact H0]. now rewrite pending_reset.
  - unfold toggleVoice, speech_cancel. cases; exact H0.
  - unfold find_timer. now rewrite Ht.
  - destruct (take id (pending w)) as [[[|c|] rest]|] eqn:T; try exact H0.
    rewrite (take_count Traces.isImageTask _ _ _ _ T) in H0.
    unfold Traces.isImageTask at 1 in H0. simpl in H0. discriminate H0.
  - destruct (take id (pending w)) as [[[| |c url] rest]|] eqn:T; try exact H0.
    rewrite (take_count Traces.isImageTask _ _ _ _ T) in H0.
    unfold captureAndAnalyze_settled.
    destruct outcome; try destruct (isAutoScan c); simpl in *; lia.
  - destruct (videoRef w); exact H0.
  - destruct (speechSynthesis w) as [[|u q]|]; exact H0.
Qed.

Lemma scanButton_idle s : scanButton s = true -> analyzing s = false.
Proof.
  unfold scanButton. rewrite !andb_true_iff. intros [_ H].
  now destruct (analyzing s).
Qed.

Lemma serialized_step e w :
  timersTidy w -> Traces.serialized w -> Traces.videoManual e = true ->
  Traces.serialized (step e w).
Proof.
  intros Hi (Ha & Ht & Hf & Him & Hn) Hm.
  assert (He : e <> ClickAuto) by (intros ->; discriminate Hm).
  pose proof (step_stays_off e w Ha He) as Ha'.
  destruct (timersTidy_off _ (timersTidy_step e w Hi) Ha') as [Ht' _].
  unfold Traces.serialized, activeAnalyses, step in *.
  rewrite st_commit, pending_commit in *.
  split; [exact Ha'|]. split; [exact Ht'|].
  split; [now apply handle_fileType|].
  split; [now apply handle_imageTasks|].
  destruct (handle_moves_origin e w) as [F O].
  unfold Traces.flagMoves, activeAnalyses in *.
  destruct F as [[F1 F2]|[[F1 F2]|[F1 F2]]].
  - now rewrite F1, F2.
  - rewrite F1, F2.
    destruct (O F2) as [[_ B]|[(id & c & _ & Tm)|(id & o & c & rest & _ & T)]].
    + rewrite (scanButton_idle _ B) in Hn. now rewrite Hn.
    + unfold find_timer in Tm. rewrite Ht in Tm. discriminate Tm.
    + rewrite (take_count Traces.isImageTask _ _ _ _ T) in Him.
      unfold Traces.isImageTask at 1 in Him. simpl in Him. discriminate Him.
  - rewrite F1. destruct (analyzing (st w)); lia.
Qed.

(** X17: in a session in which AUTO is never clicked and only videos are
    uploaded (or the camera is used), scans never overlap: at most one call
    of the analysis client is in flight, and one is in flight exactly while
    [analyzing] is set.  On these sources the frame is captured and the flag
    is set in the task of the click, so the guard and the disabled button do
    serialize the requests. *)
Theorem manual_video_scans_never_overlap (speech : bool) (es : list Event) :
  forallb Traces.videoManual es = true ->
  activeAnalyses (run es (init speech)) <= 1
  /\ activeAnalyses (run es (init speech))
     = (if analyzing (st (run es (init speech))) then 1 else 0).
Proof.
  assert (G : forall es w,
             timersTidy w -> Traces.serialized w ->
             forallb Traces.videoManual es = true ->
             Traces.serialized (run es w)).
  { clear es. induction es as [|e es IH]; intros w Hi Hs Hm; simpl; [exact Hs|].
    simpl in Hm. apply andb_true_iff in Hm. destruct Hm as [Hm Hms].
    apply IH; [now apply timersTidy_step|now apply serialized_step|exact Hms]. }
  intros Hm.
  assert (S0 : Traces.serialized (init speech)).
  { unfold Traces.serialized. simpl. repeat split. discriminate. }
  destruct (G es (init speech) (timersTidy_init speech) S0 Hm) as (_ & _ & _ & _ & Hn).
  split; [|exact Hn].
  rewrite Hn. destruct (analyzing (st (run es (init speech)))); lia.
Qed.

Lemma manual_video_scans_witness :
  activeAnalyses (run (Traces.cameraScan ++ [ClickScan; ClickScan])%list (init true)) <= 1
  /\ activeAnalyses (run (Traces.cameraScan ++ [ClickScan; ClickScan])%list (init true))
     = (if analyzing
             (st (run (Traces.cameraScan ++ [ClickScan; ClickScan])%list (init true)))
        then 1 else 0).
Proof.
  apply (manual_video_scans_never_overlap true
           (Traces.cameraScan ++ [ClickScan; ClickScan])%list).
  vm_compute. reflexivity.
Defined.

(** *** The render an interval calls *)

Lemma FileType_eqb_eq (a b : FileType) : FileType_eqb a b = true <-> a = b.
Proof. destruct a, b; simpl; split; congruence. Qed.

Lemma option_eqb_eq {A : Type} (eqb : A -> A -> bool) (a b : option A) :
  (forall x y, eqb x y = true <-> x = y) -> option_eqb eqb a b = true <-> a = b.
Proof.
  intros H. destruct a as [x|], b as [y|]; simpl; split; try congruence.
  - intros E. apply H in E. now subst.
  - intros [= ->]. now apply H.
Qed.

Lemma same_stream_option_trans (a b c : option MediaStream) :
  option_eqb same_stream a b = true -> option_eqb same_stream b c = true ->
  option_eqb same_stream a c = true.
Proof.
  destruct a as [x|], b as [y|], c as [z|]; simpl; try congruence.
  unfold same_stream. rewrite !Nat.eqb_eq. congruence.
Qed.

Lemma autoScanDeps_same_refl (s : State) : autoScanDeps_same s s = true.
Proof. now apply autoScanDeps_same_fields. Qed.

Lemma autoScanDeps_same_cells (p s : State) :
  autoScanDeps_same p s = true ->
  isAutoScan p = isAutoScan s /\ fileType p = fileType s
  /\ mediaSource p = mediaSource s /\ mode p = mode s
  /\ option_eqb same_stream (cameraStream p) (cameraStream s) = true.
Proof.
  unfold autoScanDeps_same. rewrite !andb_true_iff.
  intros [[[[H1 H2] H3] H4] H5].
  split; [now apply Bool.eqb_prop|].
  split; [now apply (option_eqb_eq FileType_eqb _ _ FileType_eqb_eq)|].
  split; [now apply (option_eqb_eq String.eqb _ _ String.eqb_eq)|].
  split; [now apply Mode_eqb_eq|exact H5].
Qed.

Lemma autoScanDeps_same_trans (a b c : State) :
  autoScanDeps_same a b = true -> autoScanDeps_same b c = true ->
  autoScanDeps_same a c = true.
Proof.
  intros H1 H2.
  destruct (autoScanDeps_same_cells _ _ H1) as (A1 & A2 & A3 & A4 & A5).
  destruct (autoScanDeps_same_cells _ _ H2) as (B1 & B2 & B3 & B4 & B5).
  pose proof (same_stream_option_trans _ _ _ A5 B5) as C5.
  unfold autoScanDeps_same. rewrite A1, B1, A2, B2, A3, B3, A4, B4, C5.
  rewrite Bool.eqb_reflx, Mode_eqb_refl, !option_eqb_refl; auto using
    FileType_eqb_refl, String.eqb_refl.
Qed.

(** After a commit that re-ran the auto-scan effect on tidy timers. *)
Lemma commit_timers_rerun w h :
  timersTidy w -> timerPart h = timerPart w ->
  autoScanDeps_same (st w) (st h) = false ->
  timers (commit w h) = if isAutoScan (st h) then [(nextTimer w, st h)] else [].
Proof.
  intros (_ & _ & Ht) T D.
  pose proof (commit_timers_changed w h D) as C.
  rewrite (timerPart_autoScanEffect _ _ (autoScanCleanup w)) in C
    by (apply timerPart_autoScanCleanup; exact T).
  assert (F : timerPart (commit w h)
              = if isAutoScan (st h)
                then ([(nextTimer w, st h)], S (nextTimer w), Some (nextTimer w))
                else ([], nextTimer w, None)).
  { rewrite C. destruct (isAutoScan (st w)).
    - destruct Ht as (id & c & E1 & E2 & E3 & E4).
      apply (rerun_from_one _ _ id c); [exact E1|exact E2|lia].
    - destruct Ht as (E1 & E2). now apply rerun_from_none. }
  destruct (isAutoScan (st h));
    destruct (timerPart_fields _ _ _ _ F) as (C1 & _ & _); exact C1.
Qed.

Lemma timersFresh_step e w :
  timersTidy w -> Traces.timersFresh w -> Traces.timersFresh (step e w).
Proof.
  intros Hi Hf id c. unfold step. rewrite st_commit.
  pose proof (handle_timers e w) as T. set (h := handle e w) in *.
  destruct (autoScanDeps_same (st w) (st h)) eqn:D.
  - pose proof (commit_timers_same w h D) as C. rewrite T in C.
    destruct (timerPart_fields _ _ _ _ C) as (C1 & _ & _). rewrite C1.
    intros Hin. apply (autoScanDeps_same_trans _ (st w)); [now apply (Hf id)|exact D].
  - rewrite (commit_timers_rerun w h Hi T D).
    destruct (isAutoScan (st h)); [|intros []].
    intros [E|[]]. injection E as _ <-. apply autoScanDeps_same_refl.
Qed.

(** X18: an interval never scans a stale source: in every state the page
    can reach, the render a registered interval calls has the same file type,
    media source, mode and camera stream as the current cells, and auto-scan
    on, because the effect replaces the interval whenever one of them
    changes. *)
Theorem interval_calls_a_render_of_the_current_source
    (speech : bool) (es : list Event) (id : nat) (c : State) :
  In (id, c) (timers (run es (init speech))) ->
  fileType c = fileType (st (run es (init speech)))
  /\ mediaSource c = mediaSource (st (run es (init speech)))
  /\ mode c = mode (st (run es (init speech)))
  /\ option_map streamId (cameraStream c)
     = option_map streamId (cameraStream (st (run es (init speech))))
  /\ isAutoScan c = true
  /\ isAutoScan (st (run es (init speech))) = true.
Proof.
  assert (G : forall es w, timersTidy w -> Traces.timersFresh w ->
                           Traces.timersFresh (run es w)).
  { clear es. induction es as [|e es IH]; intros w Hi Hf; simpl; [exact Hf|].
    apply IH; [now apply timersTidy_step|now apply timersFresh_step]. }
  intros Hin.
  assert (F0 : Traces.timersFresh (init speech)) by (intros i s []).
  pose proof (G es _ (timersTidy_init speech) F0 id c Hin) as D.
  destruct (autoScanDeps_same_cells _ _ D) as (A1 & A2 & A3 & A4 & A5).
  pose proof (timersTidy_run es _ (timersTidy_init speech)) as (_ & _ & Ht).
  assert (On : isAutoScan (st (run es (init speech))) = true).
  { destruct (isAutoScan (st (run es (init speech)))); [reflexivity|].
    destruct Ht as [Ht _]. rewrite Ht in Hin. destruct Hin. }
  repeat split; try assumption; try congruence.
  destruct (cameraStream c) as [x|], (cameraStream (st (run es (init speech)))) as [y|];
    simpl in *; try congruence.
  unfold same_stream in A5. apply Nat.eqb_eq in A5. now rewrite A5.
Qed.

(** A video is under auto-scan and a still image is uploaded: the interval
    is replaced by one (id 2) that calls the render of the image. *)
Lemma interval_calls_witness :
  fileType (st (run [Scenario.uploadVideo; ClickAuto; Scenario.uploadImage] (init true)))
  = fileType (st (run [Scenario.uploadVideo; ClickAuto; Scenario.uploadImage] (init true)))
  /\ isAutoScan
       (st (run [Scenario.uploadVideo; ClickAuto; Scenario.uploadImage] (init true)))
     = true.
Proof.
  assert (Hin : In (2, st (run [Scenario.uploadVideo; ClickAuto; Scenario.uploadImage]
                             (init true)))
                  (timers (run [Scenario.uploadVideo; ClickAuto; Scenario.uploadImage]
                             (init true)))) by (vm_compute; left; reflexivity).
  destruct (interval_calls_a_render_of_the_current_source true _ _ _ Hin)
    as (H1 & _ & _ & _ & _ & H6).
  split; [exact H1|exact H6].
Defined.

(** *** What starting a scan leaves on screen *)

Lemma cells_submit c o w :
  mode (st (submit c o w)) = mode (st w)
  /\ fileType (st (submit c o w)) = fileType (st w)
  /\ mediaSource (st (submit c o w)) = mediaSource (st w)
  /\ cameraStream (st (submit c o w)) = cameraStream (st w)
  /\ result (st (submit c o w)) = result (st w)
  /\ error (st (submit c o w)) = error (st w)
  /\ isVoiceEnabled (st (submit c o w)) = isVoiceEnabled (st w)
  /\ isAutoScan (st (submit c o w)) = isAutoScan (st w)
  /\ resultGen (submit c o w) = resultGen w.
Proof. unfold submit. cases; repeat split. Qed.

Lemma cells_captureAndAnalyze c w :
  mode (st (captureAndAnalyze c w)) = mode (st w)
  /\ fileType (st (captureAndAnalyze c w)) = fileType (st w)
  /\ mediaSource (st (captureAndAnalyze c w)) = mediaSource (st w)
  /\ cameraStream (st (captureAndAnalyze c w)) = cameraStream (st w)
  /\ result (st (captureAndAnalyze c w)) = result (st w)
  /\ error (st (captureAndAnalyze c w)) = error (st w)
  /\ isVoiceEnabled (st (captureAndAnalyze c w)) = isVoiceEnabled (st w)
  /\ isAutoScan (st (captureAndAnalyze c w)) = isAutoScan (st w)
  /\ resultGen (captureAndAnalyze c w) = resultGen w.
Proof. unfold captureAndAnalyze, submit. cases; repeat split. Qed.

(** X19: starting a scan changes no state cell but [analyzing]: whether
    captureAndAnalyze is called from the SCAN button or from a tick, and when
    the image of a suspended call has been read, the result and the error
    shown before stay as they are until the analysis settles, the mode, the
    source, voice and auto-scan are untouched, no effect runs, nothing is
    spoken and no timer changes. *)
Theorem starting_a_scan_keeps_result_and_error (e : Event) (w : World) :
  e = ClickScan \/ (exists id, e = Tick id) \/ (exists id o, e = ImageSettled id o) ->
  step e w = handle e w
  /\ result (st (step e w)) = result (st w)
  /\ error (st (step e w)) = error (st w)
  /\ mode (st (step e w)) = mode (st w)
  /\ fileType (st (step e w)) = fileType (st w)
  /\ mediaSource (st (step e w)) = mediaSource (st w)
  /\ cameraStream (st (step e w)) = cameraStream (st w)
  /\ isVoiceEnabled (st (step e w)) = isVoiceEnabled (st w)
  /\ isAutoScan (st (step e w)) = isAutoScan (st w)
  /\ speechSynthesis (step e w) = speechSynthesis w
  /\ timers (step e w) = timers w.
Proof.
  intros He.
  assert (C : mode (st (handle e w)) = mode (st w)
              /\ fileType (st (handle e w)) = fileType (st w)
              /\ mediaSource (st (handle e w)) = mediaSource (st w)
              /\ cameraStream (st (handle e w)) = cameraStream (st w)
              /\ result (st (handle e w)) = result (st w)
              /\ error (st (handle e w)) = error (st w)
              /\ isVoiceEnabled (st (handle e w)) = isVoiceEnabled (st w)
              /\ isAutoScan (st (handle e w)) = isAutoScan (st w)
              /\ resultGen (handle e w) = resultGen w).
  { destruct He as [->|[[id ->]|(id & o & ->)]]; unfold handle; cbv zeta.
    - destruct (scanButton (st w)); [apply cells_captureAndAnalyze|repeat split].
    - destruct (find_timer id w); [|repeat split].
      apply (cells_captureAndAnalyze s (with_scheduledScans (S (scheduledScans w)) w)).
    - destruct (take id (pending w)) as [[[|c|] rest]|]; try solve [repeat split].
      unfold captureAndAnalyze_image. destruct o as [url|]; [|repeat split].
      apply (cells_submit c (Some url) (with_pending rest (nextTask w) w)). }
  destruct C as (C1 & C2 & C3 & C4 & C5 & C6 & C7 & C8 & C9).
  assert (Q : step e w = handle e w).
  { unfold step. apply commit_quiet; congruence. }
  rewrite Q. repeat split; try assumption.
  - destruct He as [->|[[id ->]|(id & o & ->)]]; unfold_handlers; cases; reflexivity.
  - pose proof (handle_timers e w) as T. unfold timerPart in T. congruence.
Qed.

Lemma starting_a_scan_witness :
  error (st (step ClickScan
               (run [Scenario.uploadImage; ClickScan; ImageSettled 0 (Some Scenario.pngUrl);
                     AnalysisSettled 1 (inl "503")] (init true))))
  = error (st (run [Scenario.uploadImage; ClickScan; ImageSettled 0 (Some Scenario.pngUrl);
                    AnalysisSettled 1 (inl "503")] (init true))).
Proof.
  destruct (starting_a_scan_keeps_result_and_error ClickScan
              (run [Scenario.uploadImage; ClickScan; ImageSettled 0 (Some Scenario.pngUrl);
                    AnalysisSettled 1 (inl "503")] (init true))
              (or_introl eq_refl)) as (_ & _ & H3 & _).
  exact H3.
Defined.
